(** * Fitness diary: the computation and aggregation core of [fitnessapp.py]

    A shallow embedding of the nutrition table, the macro calculator, the
    body-metrics helpers, the "Save Entry" handler and the weekly report of
    [src/fitnessapp.py], followed by the properties stated about them.

    Two models of the numbers are used.
    - The exact model takes Python numbers as rationals ([Q]) and
      [round(x, n)] as round-half-to-even on the exact value.  It carries the
      properties that do not depend on how a float rounds: which pairs are
      skipped, what can raise in the table lookups, signs, order, ranges, the
      store and the report.  Results are compared with [==] ([Qeq]) where two
      fractions may denote the same number.
    - The binary64 model (module [Py]) takes Python numbers as they are:
      unbounded integers and IEEE binary64 floats, every operation rounding
      as the interpreter does and raising what the interpreter raises.  It
      carries the properties that pin a computed value.

    Other conventions.
    - Python's [None] and a missing dict key are kept apart: a dict field is
      an [option value], a value is [PyNone] or a number.
    - A Python [dict] is an association list in insertion order, because the
      report iterates [data.items()] and the order of the rows depends on it.
    - Code that can raise returns a [result]: [Ok v] or [Raise e]. *)

From Stdlib Require Import ZArith QArith Qround Qabs Bool List String Lia Lqa.
From Stdlib Require Import Sorting.Sorted Sorting.Permutation.
From Stdlib Require Import PrimFloat FloatOps SpecFloat Uint63Axioms.
Import ListNotations.

Local Open Scope string_scope.
Local Open Scope Q_scope.

(** ** Python numbers *)

(** Nearest integer, ties to the even one. *)
Definition round_half_even (x : Q) : Z :=
  let f := Qfloor x in
  match ((x - inject_Z f) ?= (1 # 2))%Q with
  | Lt => f
  | Gt => (f + 1)%Z
  | Eq => if Z.even f then f else (f + 1)%Z
  end.

Definition pow10 (ndigits : nat) : Q := inject_Z (10 ^ Z.of_nat ndigits).

(** [round(x, ndigits)] *)
Definition round (x : Q) (ndigits : nat) : Q :=
  inject_Z (round_half_even (x * pow10 ndigits)) / pow10 ndigits.

(** ** Exceptions *)

Inductive exn : Type :=
| KeyError (key : string)
| ZeroDivisionError.

Inductive result (A : Type) : Type :=
| Ok (a : A)
| Raise (e : exn).

Arguments Ok {A} a.
Arguments Raise {A} e.

Definition bind {A B : Type} (r : result A) (k : A -> result B) : result B :=
  match r with
  | Ok a => k a
  | Raise e => Raise e
  end.

Notation "x <- r ;; k" := (bind r (fun x => k))
  (at level 61, r at next level, right associativity).

(** [x / y] *)
Definition pydiv (x y : Q) : result Q :=
  if Qeq_bool y 0 then Raise ZeroDivisionError else Ok (x / y).

(** ** Constants *)

Definition STEPS_PER_MILE : Q := 1200.
Definition CAL_PER_MILE : Q := 100.

(** ** Body metrics *)

Definition calculate_bmi (weight height_cm : Q) : result (option Q) :=
  if Qle_bool weight 0 || Qle_bool height_cm 0 then Ok None
  else
    height_m <- pydiv height_cm 100 ;;
    bmi <- pydiv weight (height_m ^ 2) ;;
    Ok (Some (round bmi 2)).

Definition steps_to_miles_calories (steps : Z) : result (Q * Q) :=
  miles <- pydiv (inject_Z steps) STEPS_PER_MILE ;;
  let cal_burned := miles * CAL_PER_MILE in
  Ok (round miles 2, round cal_burned 1).

(** ** Dicts *)

Section Dict.
Context {V : Type}.

(** [d.get(k)]: the value under [k], [None] when the key is absent. *)
Fixpoint dict_get (d : list (string * V)) (k : string) : option V :=
  match d with
  | [] => None
  | (k', v) :: rest => if String.eqb k' k then Some v else dict_get rest k
  end.

(** [d[k] = v]: an existing key keeps its position, a new key goes last. *)
Fixpoint dict_set (d : list (string * V)) (k : string) (v : V)
  : list (string * V) :=
  match d with
  | [] => [(k, v)]
  | (k', v') :: rest =>
      if String.eqb k' k then (k, v) :: rest
      else (k', v') :: dict_set rest k v
  end.

Definition keys (d : list (string * V)) : list string := map fst d.
End Dict.

(** ** Nutrition reference table *)

(** One value of [FOOD_DATA].  The key "base" is present only in the
    entries whose unit is "g". *)
Record food_info : Type := {
  info_unit : string;
  info_base : option Q;
  info_cal : Q;
  info_protein : Q;
  info_carbs : Q;
  info_fat : Q
}.

Definition per_grams (base cal protein carbs fat : Q) : food_info :=
  {| info_unit := "g"; info_base := Some base; info_cal := cal;
     info_protein := protein; info_carbs := carbs; info_fat := fat |}.

Definition per_count (cal protein carbs fat : Q) : food_info :=
  {| info_unit := "count"; info_base := None; info_cal := cal;
     info_protein := protein; info_carbs := carbs; info_fat := fat |}.

Definition FOOD_DATA : list (string * food_info) :=
  [ ("Oats", per_grams 45 170 10 28 0);
    ("Whey Protein", per_grams 34 120 25 2.5 0);
    ("Skim Milk Powder", per_grams 40 160 16 18 0);
    ("PB Powder", per_grams 16 80 7 6.2 0);
    ("Nuts", per_grams 15 95 2 4 9);
    ("White Rice", per_grams 150 210 5 72 0.5);
    ("Tomato", per_count 20 0 0 0);
    ("Onion", per_count 35 0 0 0);
    ("Yogurt", per_grams 170 90 18 7 0);
    ("Tortilla", per_count 70 5 12 2);
    ("Soya Chunks", per_grams 30 140 30 6 1);
    ("Whey Protein Shake", per_grams 34 120 25 2 0) ].

(** ** Macro calculator *)

(** The dict [total] of [calculate_macros]. *)
Record totals : Type := {
  total_cal : Q;
  total_protein : Q;
  total_carbs : Q;
  total_fat : Q
}.

Definition zero_totals : totals :=
  {| total_cal := 0; total_protein := 0; total_carbs := 0; total_fat := 0 |}.

Section Macros.
(** The table is a parameter so that the safety of the lookups can be
    stated as a property of [FOOD_DATA] rather than of the loop. *)
Variable table : list (string * food_info).

(** One iteration of the loop over [food_inputs.items()]. *)
Definition add_food (total : totals) (item : string * option Q)
  : result totals :=
  let (food, qty) := item in
  match qty with
  | None => Ok total
  | Some qty =>
      if Qeq_bool qty 0 then Ok total
      else
        match dict_get table food with
        | None => Ok total
        | Some info =>
            if String.eqb (info_unit info) "g" then
              match info_base info with
              | None => Raise (KeyError "base")
              | Some base =>
                  ratio <- pydiv qty base ;;
                  Ok {| total_cal := total_cal total + info_cal info * ratio;
                        total_protein :=
                          total_protein total + info_protein info * ratio;
                        total_carbs :=
                          total_carbs total + info_carbs info * ratio;
                        total_fat := total_fat total + info_fat info * ratio |}
              end
            else if String.eqb (info_unit info) "count" then
              Ok {| total_cal := total_cal total + info_cal info * qty;
                    total_protein :=
                      total_protein total + info_protein info * qty;
                    total_carbs := total_carbs total;
                    total_fat := total_fat total |}
            else Ok total
        end
  end.

Fixpoint add_foods (items : list (string * option Q)) (total : totals)
  : result totals :=
  match items with
  | [] => Ok total
  | item :: rest => total' <- add_food total item ;; add_foods rest total'
  end.

Definition calculate_macros_with (food_inputs : list (string * option Q))
  : result totals :=
  add_foods food_inputs zero_totals.
End Macros.

Definition calculate_macros : list (string * option Q) -> result totals :=
  calculate_macros_with FOOD_DATA.

(** Pairs that the loop skips: quantity [None] or zero, or a food that is not
    a key of the table. *)
Definition skipped (table : list (string * food_info))
  (item : string * option Q) : bool :=
  match snd item with
  | None => true
  | Some qty =>
      Qeq_bool qty 0 ||
      match dict_get table (fst item) with None => true | Some _ => false end
  end.

(** Equality of totals as numbers. *)
Definition totals_eq (a b : totals) : Prop :=
  total_cal a == total_cal b /\ total_protein a == total_protein b /\
  total_carbs a == total_carbs b /\ total_fat a == total_fat b.

(** Every entry with unit "g" has a key "base" whose value is positive. *)
Definition base_ok (info : food_info) : bool :=
  if String.eqb (info_unit info) "g" then
    match info_base info with
    | Some base => negb (Qle_bool base 0)
    | None => false
    end
  else true.

(** ** Diary entries *)

(** A JSON value read by the report: [null] or a number. *)
Inductive value : Type :=
| PyNone
| PyNum (q : Q).

(** One element of [entry["extra_food"]]. *)
Record extra_item : Type := {
  x_name : string;
  x_calories : option Q;
  x_protein : option Q
}.

(** One value of the store.  A numeric key that may be missing from the dict
    is an [option]: [None] is "no such key", [Some PyNone] is a stored
    [null].  Every entry the application writes has the key "date". *)
Record entry : Type := {
  e_date : string;
  e_weight : option value;
  e_height : option value;
  e_age : option value;
  e_bmi : option value;
  e_steps : option value;
  e_workout_notes : string;
  e_food : list (string * option Q);
  e_extra_food : list extra_item;
  e_total_calories : option value;
  e_total_protein : option value;
  e_net_calories : option value;
  e_miles_walked : option value;
  e_calories_burned : option value
}.

(** [e.get(key, default)] on one field. *)
Definition get (field : option value) (default : value) : value :=
  match field with
  | Some v => v
  | None => default
  end.

(** [item.get(key, 0)] on one field of an extra food. *)
Definition get0 (field : option Q) : Q :=
  match field with
  | Some q => q
  | None => 0
  end.

(** [sum(...)]: starts from 0 and adds from the left. *)
Definition sum (l : list Q) : Q := fold_left Qplus l 0.

Definition of_bmi (bmi : option Q) : value :=
  match bmi with
  | Some q => PyNum q
  | None => PyNone
  end.

(** The entry the handler starts from when the date has none yet. *)
Definition blank_entry (date_str : string) : entry :=
  {| e_date := date_str;
     e_weight := Some PyNone; e_height := Some PyNone; e_age := Some PyNone;
     e_bmi := Some PyNone; e_steps := Some (PyNum 0);
     e_workout_notes := ""; e_food := []; e_extra_food := [];
     e_total_calories := Some (PyNum 0); e_total_protein := Some (PyNum 0);
     e_net_calories := Some (PyNum 0);
     e_miles_walked := None; e_calories_burned := None |}.

Definition get_entry (data : list (string * entry)) (date_str : string)
  : entry :=
  match dict_get data date_str with
  | Some e => e
  | None => blank_entry date_str
  end.

(** The body of [if st.button("Save Entry")], up to the write into [data].
    Every key of the entry is assigned, so the entry read by [get_entry]
    does not show in the result. *)
Definition save_entry (selected_date_str : string)
  (combined_food : list (string * option Q)) (extra_foods : list extra_item)
  (weight height : Q) (age steps : Z) (workout_notes : string)
  : result entry :=
  bmi <- calculate_bmi weight height ;;
  macros <- calculate_macros combined_food ;;
  let extra_cal := sum (map (fun item => get0 (x_calories item)) extra_foods) in
  let extra_prot := sum (map (fun item => get0 (x_protein item)) extra_foods) in
  let total_calories := total_cal macros + extra_cal in
  let total_protein := total_protein macros + extra_prot in
  ms <- steps_to_miles_calories steps ;;
  let (miles, cal_burned) := ms in
  let net_calories := total_calories - cal_burned in
  Ok {| e_date := selected_date_str;
        e_weight := Some (PyNum weight);
        e_height := Some (PyNum height);
        e_age := Some (PyNum (inject_Z age));
        e_bmi := Some (of_bmi bmi);
        e_steps := Some (PyNum (inject_Z steps));
        e_workout_notes := workout_notes;
        e_food := combined_food;
        e_extra_food := extra_foods;
        e_total_calories := Some (PyNum (round total_calories 1));
        e_total_protein := Some (PyNum (round total_protein 1));
        e_net_calories := Some (PyNum (round net_calories 1));
        e_miles_walked := Some (PyNum miles);
        e_calories_burned := Some (PyNum (round cal_burned 1)) |}.

(** [data[selected_date_str] = entry] after a successful save. *)
Definition save (data : list (string * entry)) (selected_date_str : string)
  (combined_food : list (string * option Q)) (extra_foods : list extra_item)
  (weight height : Q) (age steps : Z) (workout_notes : string)
  : result (list (string * entry)) :=
  e <- save_entry selected_date_str combined_food extra_foods
         weight height age steps workout_notes ;;
  Ok (dict_set data selected_date_str e).

(** ** Weekly report *)

(** The text of one table cell: a literal, or [str(q)] of a number. *)
Inductive cell : Type :=
| Text (s : string)
| Str (q : Q).

Record row : Type := {
  row_date : cell;
  row_weight : cell;
  row_calories : cell;
  row_protein : cell;
  row_net : cell;
  row_bmi : cell
}.

(** Truth value of [v] in [... if v else ...]. *)
Definition truthy (v : value) : bool :=
  match v with
  | PyNone => false
  | PyNum q => negb (Qeq_bool q 0)
  end.

(** [str(v) if v else "-"] *)
Definition cell_plain (v : value) : cell :=
  match v with
  | PyNum q => if truthy v then Str q else Text "-"
  | PyNone => Text "-"
  end.

(** [str(round(v,1)) if v else "0"] *)
Definition cell_rounded (v : value) : cell :=
  match v with
  | PyNum q => if truthy v then Str (round q 1) else Text "0"
  | PyNone => Text "0"
  end.

(** The two loops of [generate_weekly_report] for one entry: the values
    appended to the six lists, then the six cells of the table line. *)
Definition summary_row (e : entry) : row :=
  let date := e_date e in
  let weight := get (e_weight e) PyNone in
  let calories := get (e_total_calories e) (PyNum 0) in
  let protein := get (e_total_protein e) (PyNum 0) in
  let net := get (e_net_calories e) (PyNum 0) in
  let bmi := get (e_bmi e) PyNone in
  {| row_date := Text date;
     row_weight := cell_plain weight;
     row_calories := cell_rounded calories;
     row_protein := cell_rounded protein;
     row_net := cell_rounded net;
     row_bmi := cell_plain bmi |}.

(** The rows of the table, one per selected entry, in the order of the
    selection. *)
Definition summary_rows (entries : list entry) : list row :=
  map summary_row entries.

(** [start_date <= k <= end_date] on strings. *)
Definition in_range (start_date end_date k : string) : bool :=
  String.leb start_date k && String.leb k end_date.

(** [[v for k, v in data.items() if start_date <= k <= end_date]] *)
Definition select_entries (data : list (string * entry))
  (start_date end_date : string) : list entry :=
  map snd (filter (fun kv => in_range start_date end_date (fst kv)) data).

Record pdf : Type := {
  pdf_week : string;
  pdf_rows : list row;
  pdf_filename : string
}.

Definition generate_weekly_report (data : list (string * entry))
  (start_date end_date : string) : option pdf :=
  match select_entries data start_date end_date with
  | [] => None
  | entries =>
      Some {| pdf_week := "Week: " ++ start_date ++ " to " ++ end_date;
              pdf_rows := summary_rows entries;
              pdf_filename :=
                "weekly_report_" ++ start_date ++ "_to_" ++ end_date
                ++ ".pdf" |}
  end.

(** [sorted(...)] on strings, by insertion. *)
Fixpoint insert_sorted (k : string) (l : list string) : list string :=
  match l with
  | [] => [k]
  | k' :: rest =>
      if String.leb k k' then k :: l else k' :: insert_sorted k rest
  end.

Definition sorted (l : list string) : list string :=
  fold_right insert_sorted [] l.

(** The date filter of the "Weekly Report" page, which feeds the charts and
    the on-screen table:
    [sorted([d for d in data.keys() if seven_days_ago <= d <= today_str])]. *)
Definition filtered_dates (data : list (string * entry))
  (seven_days_ago today_str : string) : list string :=
  sorted (filter (in_range seven_days_ago today_str) (keys data)).

(** [dates = sorted(data.keys()); values = [data[d].get(key, None) ...]]
    of [plot_trends]. *)
Definition plot_trends (data : list (string * entry))
  (key : entry -> option value) : list (string * value) :=
  flat_map (fun d => match dict_get data d with
                     | Some e => [(d, get (key e) PyNone)]
                     | None => []
                     end) (sorted (keys data)).

(** ** Sample data *)

(** An entry as the handler saves it on an otherwise empty form. *)
Definition saved_on (date_str : string) : entry :=
  match save_entry date_str [] [] 70 170 30 0 "" with
  | Ok e => e
  | Raise _ => blank_entry date_str
  end.

(** The store after saving the given dates one after the other. *)
Definition store_of (dates : list string) : list (string * entry) :=
  fold_left (fun data d => dict_set data d (saved_on d)) dates [].

Definition january_descending : list string :=
  [ "2024-01-10"; "2024-01-09"; "2024-01-08"; "2024-01-07"; "2024-01-06";
    "2024-01-05"; "2024-01-04"; "2024-01-03"; "2024-01-02"; "2024-01-01" ].

(** An entry whose key "total_calories" (and "weight") is missing, and the same
    entry with a stored zero. *)
Definition entry_without_totals : entry :=
  {| e_date := "2024-01-03";
     e_weight := None; e_height := None; e_age := None; e_bmi := None;
     e_steps := None; e_workout_notes := ""; e_food := []; e_extra_food := [];
     e_total_calories := None; e_total_protein := None;
     e_net_calories := None; e_miles_walked := None;
     e_calories_burned := None |}.

Definition entry_with_zeros : entry :=
  {| e_date := "2024-01-03";
     e_weight := Some (PyNum 0); e_height := None; e_age := None;
     e_bmi := Some (PyNum 0);
     e_steps := None; e_workout_notes := ""; e_food := []; e_extra_food := [];
     e_total_calories := Some (PyNum 0); e_total_protein := Some (PyNum 0);
     e_net_calories := Some (PyNum 0); e_miles_walked := None;
     e_calories_burned := None |}.

(** A field is unavailable to the report when its key is missing, when it
    holds [None], or when it holds zero. *)
Definition unavailable (field : option value) : Prop :=
  field = None \/ field = Some PyNone \/
  exists q, field = Some (PyNum q) /\ q == 0.

(** How the report shows a field: the default text when the field is
    unavailable, and otherwise the number, passed through [f]. *)
Inductive rendered (default : string) (f : Q -> Q) (field : option value)
  : cell -> Prop :=
| rendered_default :
    unavailable field -> rendered default f field (Text default)
| rendered_number (q : Q) :
    field = Some (PyNum q) -> ~ q == 0 -> rendered default f field (Str (f q)).

(** Dates in ascending order. *)
Definition ascending : list string -> Prop :=
  Sorted (fun a b => String.leb a b = true).

(** ** The binary64 model

    The numeric functions once more, on Python's own numbers: unbounded
    integers and IEEE binary64 floats, with the exceptions the operations
    raise.  Float operations are the primitive binary64 operations; the
    conversions that round (an integer or a quotient of integers to a float,
    a decimal to a float) are the standard library's [binary_normalize] and
    [SFdiv], which round to nearest, ties to even. *)

Module Py.

Inductive exn : Type :=
| TypeError
| KeyError (key : string)
| ZeroDivisionError
| OverflowError.

Inductive outcome (A : Type) : Type :=
| Returns (a : A)
| Raises (e : exn).

Arguments Returns {A} a.
Arguments Raises {A} e.

Definition bind {A B : Type} (r : outcome A) (k : A -> outcome B)
  : outcome B :=
  match r with
  | Returns a => k a
  | Raises e => Raises e
  end.

Notation "x <~ r ;; k" := (bind r (fun x => k))
  (at level 61, r at next level, right associativity).

(** A Python number: an [int] or a [float]. *)
Inductive num : Type :=
| Int (z : Z)
| Float (f : float).

(** A Python value that is a number or [None]. *)
Inductive value : Type :=
| NoneValue
| Num (n : num).

(** *** Integers and floats *)

Definition Z2SF (z : Z) : spec_float :=
  match z with
  | Z0 => S754_zero false
  | Zpos p => S754_finite false p 0
  | Zneg p => S754_finite true p 0
  end.

(** The float nearest to the quotient a / b of two integers, b not zero;
    an infinity when the quotient is too large. *)
Definition nearest_quotient (a b : Z) : float :=
  SF2Prim (SFdiv prec emax (Z2SF a) (Z2SF b)).

(** The float nearest to an integer; an infinity when it is too large. *)
Definition nearest_int (z : Z) : float :=
  SF2Prim (binary_normalize prec emax z 0 false).

(** An integer that a float holds exactly. *)
Definition small (z : Z) : bool := (Z.abs z <? 2 ^ 53)%Z.

(** The float of a [small] integer. *)
Definition of_small (z : Z) : float :=
  match z with
  | Zneg p => PrimFloat.opp (PrimFloat.of_uint63 (Uint63Axioms.of_Z (Zpos p)))
  | _ => PrimFloat.of_uint63 (Uint63Axioms.of_Z z)
  end.

(** The float that a decimal literal such as [6.2] (k = 62, one digit)
    denotes. *)
Definition literal (k : Z) (ndigits : nat) : float :=
  nearest_quotient k (10 ^ Z.of_nat ndigits).

(** [float(z)]: raises when the integer is too large for a float. *)
Definition float_of_int (z : Z) : outcome float :=
  if small z then Returns (of_small z)
  else
    let f := nearest_int z in
    if PrimFloat.is_infinity f then Raises OverflowError else Returns f.

(** The conversion an arithmetic operation applies to an operand when the
    other operand is a float. *)
Definition to_float (x : num) : outcome float :=
  match x with
  | Int z => float_of_int z
  | Float f => Returns f
  end.

(** *** Arithmetic *)

(** [x + y] *)
Definition add (x y : num) : outcome num :=
  match x, y with
  | Int a, Int b => Returns (Int (a + b))
  | _, _ =>
      a <~ to_float x ;; b <~ to_float y ;;
      Returns (Float (PrimFloat.add a b))
  end.

(** [x - y] *)
Definition sub (x y : num) : outcome num :=
  match x, y with
  | Int a, Int b => Returns (Int (a - b))
  | _, _ =>
      a <~ to_float x ;; b <~ to_float y ;;
      Returns (Float (PrimFloat.sub a b))
  end.

(** [x * y] *)
Definition mul (x y : num) : outcome num :=
  match x, y with
  | Int a, Int b => Returns (Int (a * b))
  | _, _ =>
      a <~ to_float x ;; b <~ to_float y ;;
      Returns (Float (PrimFloat.mul a b))
  end.

(** [x / y].  On two integers the result is the float nearest to the exact
    quotient; both branches give it, the first is the shortcut for operands
    that a float holds exactly. *)
Definition truediv (x y : num) : outcome num :=
  match x, y with
  | Int a, Int b =>
      if (b =? 0)%Z then Raises ZeroDivisionError
      else if small a && small b
      then Returns (Float (PrimFloat.div (of_small a) (of_small b)))
      else
        let f := nearest_quotient a b in
        if PrimFloat.is_infinity f then Raises OverflowError
        else Returns (Float f)
  | _, _ =>
      a <~ to_float x ;; b <~ to_float y ;;
      if PrimFloat.eqb b PrimFloat.zero then Raises ZeroDivisionError
      else Returns (Float (PrimFloat.div a b))
  end.

(** [x ** 2].  On a float the power is taken as the correctly rounded
    square; a finite float whose square is not finite raises, a square that
    underflows is zero. *)
Definition square (x : num) : outcome num :=
  match x with
  | Int a => Returns (Int (a * a))
  | Float f =>
      let r := PrimFloat.mul f f in
      if PrimFloat.is_infinity r && PrimFloat.is_finite f
      then Raises OverflowError
      else Returns (Float r)
  end.

(** [x <= 0] *)
Definition le0 (x : num) : bool :=
  match x with
  | Int a => (a <=? 0)%Z
  | Float f => PrimFloat.leb f PrimFloat.zero
  end.

(** [x == 0] *)
Definition eq0 (x : num) : bool :=
  match x with
  | Int a => (a =? 0)%Z
  | Float f => PrimFloat.eqb f PrimFloat.zero
  end.

(** *** Rounding *)

(** The exact value of a finite float. *)
Definition exact (x : float) : Q :=
  match Prim2SF x with
  | S754_finite s m e =>
      let v := match e with
               | Zneg p => Zpos m # (2 ^ p)
               | _ => inject_Z (Zpos m * 2 ^ e)
               end in
      if s then - v else v
  | _ => 0
  end.

(** [round(x, ndigits)] on a float: the decimal with [ndigits] digits
    nearest to the exact value of [x], ties to the even digit, then the float
    nearest to that decimal; a zero keeps the sign of [x]; infinities and NaN
    are returned as they are. *)
Definition round_float (x : float) (ndigits : nat) : float :=
  if PrimFloat.is_finite x then
    match round_half_even (exact x * pow10 ndigits) with
    | Z0 => if PrimFloat.get_sign x then PrimFloat.neg_zero else PrimFloat.zero
    | k => literal k ndigits
    end
  else x.

(** [round(x, ndigits)] for [ndigits >= 0]: an integer is returned as it
    is. *)
Definition round (x : num) (ndigits : nat) : num :=
  match x with
  | Int a => Int a
  | Float f => Float (round_float f ndigits)
  end.

(** [sum(...)] as CPython up to 3.11 computes it: from 0, adding from the
    left. *)
Fixpoint sum_from (l : list num) (acc : num) : outcome num :=
  match l with
  | [] => Returns acc
  | x :: rest => acc' <~ add acc x ;; sum_from rest acc'
  end.

Definition sum_left (l : list num) : outcome num := sum_from l (Int 0).

(** *** Body metrics *)

Definition STEPS_PER_MILE : num := Int 1200.
Definition CAL_PER_MILE : num := Int 100.

(** [v <= 0], which raises on [None]. *)
Definition le0_value (v : value) : outcome bool :=
  match v with
  | NoneValue => Raises TypeError
  | Num n => Returns (le0 n)
  end.

Definition calculate_bmi (weight height_cm : value) : outcome (option num) :=
  weight_le <~ le0_value weight ;;
  guard <~ (if weight_le then Returns true else le0_value height_cm) ;;
  if guard then Returns None
  else
    match weight, height_cm with
    | Num weight, Num height_cm =>
        height_m <~ truediv height_cm (Int 100) ;;
        squared <~ square height_m ;;
        bmi <~ truediv weight squared ;;
        Returns (Some (round bmi 2))
    | _, _ => Raises TypeError
    end.

Definition steps_to_miles_calories (steps : num) : outcome (num * num) :=
  miles <~ truediv steps STEPS_PER_MILE ;;
  cal_burned <~ mul miles CAL_PER_MILE ;;
  Returns (round miles 2, round cal_burned 1).

(** *** Nutrition table and macro calculator *)

Record food_info : Type := {
  info_unit : string;
  info_base : option num;
  info_cal : num;
  info_protein : num;
  info_carbs : num;
  info_fat : num
}.

Definition per_grams (base cal protein carbs fat : num) : food_info :=
  {| info_unit := "g"; info_base := Some base; info_cal := cal;
     info_protein := protein; info_carbs := carbs; info_fat := fat |}.

Definition per_count (cal protein carbs fat : num) : food_info :=
  {| info_unit := "count"; info_base := None; info_cal := cal;
     info_protein := protein; info_carbs := carbs; info_fat := fat |}.

Definition FOOD_DATA : list (string * food_info) :=
  [ ("Oats", per_grams (Int 45) (Int 170) (Int 10) (Int 28) (Int 0));
    ("Whey Protein",
     per_grams (Int 34) (Int 120) (Int 25) (Float (literal 25 1)) (Int 0));
    ("Skim Milk Powder",
     per_grams (Int 40) (Int 160) (Int 16) (Int 18) (Int 0));
    ("PB Powder",
     per_grams (Int 16) (Int 80) (Int 7) (Float (literal 62 1)) (Int 0));
    ("Nuts", per_grams (Int 15) (Int 95) (Int 2) (Int 4) (Int 9));
    ("White Rice",
     per_grams (Int 150) (Int 210) (Int 5) (Int 72) (Float (literal 5 1)));
    ("Tomato", per_count (Int 20) (Int 0) (Int 0) (Int 0));
    ("Onion", per_count (Int 35) (Int 0) (Int 0) (Int 0));
    ("Yogurt", per_grams (Int 170) (Int 90) (Int 18) (Int 7) (Int 0));
    ("Tortilla", per_count (Int 70) (Int 5) (Int 12) (Int 2));
    ("Soya Chunks", per_grams (Int 30) (Int 140) (Int 30) (Int 6) (Int 1));
    ("Whey Protein Shake",
     per_grams (Int 34) (Int 120) (Int 25) (Int 2) (Int 0)) ].

Record totals : Type := {
  total_cal : num;
  total_protein : num;
  total_carbs : num;
  total_fat : num
}.

Definition zero_totals : totals :=
  {| total_cal := Int 0; total_protein := Int 0;
     total_carbs := Int 0; total_fat := Int 0 |}.

(** One iteration of the loop over [food_inputs.items()]. *)
Definition add_food (total : totals) (item : string * value)
  : outcome totals :=
  let (food, qty) := item in
  match qty with
  | NoneValue => Returns total
  | Num qty =>
      if eq0 qty then Returns total
      else
        match dict_get FOOD_DATA food with
        | None => Returns total
        | Some info =>
            if String.eqb (info_unit info) "g" then
              match info_base info with
              | None => Raises (KeyError "base")
              | Some base =>
                  ratio <~ truediv qty base ;;
                  c <~ mul (info_cal info) ratio ;;
                  cal <~ add (total_cal total) c ;;
                  p <~ mul (info_protein info) ratio ;;
                  protein <~ add (total_protein total) p ;;
                  b <~ mul (info_carbs info) ratio ;;
                  carbs <~ add (total_carbs total) b ;;
                  f <~ mul (info_fat info) ratio ;;
                  fat <~ add (total_fat total) f ;;
                  Returns {| total_cal := cal; total_protein := protein;
                             total_carbs := carbs; total_fat := fat |}
              end
            else if String.eqb (info_unit info) "count" then
              c <~ mul (info_cal info) qty ;;
              cal <~ add (total_cal total) c ;;
              p <~ mul (info_protein info) qty ;;
              protein <~ add (total_protein total) p ;;
              Returns {| total_cal := cal; total_protein := protein;
                         total_carbs := total_carbs total;
                         total_fat := total_fat total |}
            else Returns total
        end
  end.

Fixpoint add_foods (items : list (string * value)) (total : totals)
  : outcome totals :=
  match items with
  | [] => Returns total
  | item :: rest => total' <~ add_food total item ;; add_foods rest total'
  end.

Definition calculate_macros (food_inputs : list (string * value))
  : outcome totals :=
  add_foods food_inputs zero_totals.

(** *** The Save Entry computation *)

(** One element of [extra_foods]; a key that is missing is [None]. *)
Record extra_item : Type := {
  x_name : string;
  x_calories : option num;
  x_protein : option num
}.

(** [item.get(key, 0)] *)
Definition get0 (field : option num) : num :=
  match field with
  | Some n => n
  | None => Int 0
  end.

(** The keys the handler computes; the other keys of the entry are copies
    of the form's values. *)
Record computed : Type := {
  c_bmi : option num;
  c_total_calories : num;
  c_total_protein : num;
  c_miles_walked : num;
  c_calories_burned : num;
  c_net_calories : num
}.

Section Handler.
(** The builtin [sum].  It starts from 0 and adds from the left; from
    CPython 3.12 on it compensates the rounding error of float additions, so
    what it returns on several floats depends on the interpreter. *)
Variable sum : list num -> outcome num.

(** Lines 275-296: from the form's values to the computed keys. *)
Definition save_entry (combined_food : list (string * value))
  (extra_foods : list extra_item) (weight height : value) (steps : num)
  : outcome computed :=
  bmi <~ calculate_bmi weight height ;;
  macros <~ calculate_macros combined_food ;;
  extra_cal <~ sum (map (fun item => get0 (x_calories item)) extra_foods) ;;
  extra_prot <~ sum (map (fun item => get0 (x_protein item)) extra_foods) ;;
  total_calories <~ add (total_cal macros) extra_cal ;;
  total_protein <~ add (total_protein macros) extra_prot ;;
  ms <~ steps_to_miles_calories steps ;;
  let (miles, cal_burned) := ms in
  net_calories <~ sub total_calories cal_burned ;;
  Returns {| c_bmi := bmi;
             c_total_calories := round total_calories 1;
             c_total_protein := round total_protein 1;
             c_miles_walked := miles;
             c_calories_burned := round cal_burned 1;
             c_net_calories := round net_calories 1 |}.
End Handler.

(** *** The formulas of the specification *)


(** Net calories as the specification words them: from the total already
    rounded to 1 decimal. *)
Definition spec_netCalories (macros_calories extraCal caloriesBurned : num)
  : outcome num :=
  total <~ add macros_calories extraCal ;;
  let totalCalories := round total 1 in
  difference <~ sub totalCalories caloriesBurned ;;
  Returns (round difference 1).

End Py.

(** ** Further definitions *)

(** [d.update(other)]: every pair of [other] is assigned in turn. *)
Definition update {V : Type} (d other : list (string * V))
  : list (string * V) :=
  fold_left (fun acc kv => dict_set acc (fst kv) (snd kv)) other d.

(** The three meal dicts merged by the handler:
    [combined_food = {}] followed by three [update]s. *)
Definition combine_meals (m1 m2 m3 : list (string * option Q))
  : list (string * option Q) :=
  update (update (update [] m1) m2) m3.

Definition totals_add (a b : totals) : totals :=
  {| total_cal := total_cal a + total_cal b;
     total_protein := total_protein a + total_protein b;
     total_carbs := total_carbs a + total_carbs b;
     total_fat := total_fat a + total_fat b |}.

(** The four nutrition values of a table entry are not negative. *)
Definition info_nonneg (info : food_info) : bool :=
  Qle_bool 0 (info_cal info) && Qle_bool 0 (info_protein info) &&
  Qle_bool 0 (info_carbs info) && Qle_bool 0 (info_fat info).

Definition totals_nonneg (t : totals) : Prop :=
  0 <= total_cal t /\ 0 <= total_protein t /\
  0 <= total_carbs t /\ 0 <= total_fat t.

(** Every pair holds [None] or a quantity that is not negative. *)
Definition quantities_nonneg (m : list (string * option Q)) : Prop :=
  forall food q, In (food, Some q) m -> 0 <= q.

(** Every entry of the store carries its own key as "date". *)
Definition dated (data : list (string * entry)) : Prop :=
  forall k e, In (k, e) data -> e_date e = k.

(** What the "Weekly Report" page ends with once the download button is
    pressed.  The branches are those of lines 362-407. *)
Inductive weekly_page : Type :=
| NoDataAvailable
| NoDataInLast7Days
| Download (p : pdf)
| FailedToGenerate.

Definition weekly_report_page (data : list (string * entry))
  (seven_days_ago today_str : string) : weekly_page :=
  match data with
  | [] => NoDataAvailable
  | _ =>
      match filtered_dates data seven_days_ago today_str with
      | [] => NoDataInLast7Days
      | start_date :: rest =>
          let end_date := last rest start_date in
          match generate_weekly_report data start_date end_date with
          | Some p => Download p
          | None => FailedToGenerate
          end
      end
  end.

(** [l.index(x)]: the position of the first [x], for an [x] that is in
    [l]. *)
Fixpoint index_of (x : string) (l : list string) : nat :=
  match l with
  | [] => 0
  | y :: rest => if String.eqb y x then 0 else S (index_of x rest)
  end.

(** The date the "History" page shows first: the dates are sorted in
    descending order and the select box starts at the selected date when the
    store has it and at position 0 otherwise.  [None] stands for "No data
    saved yet." *)
Definition history_preselected (data : list (string * entry))
  (selected_date_str : string) : option string :=
  match data with
  | [] => None
  | _ =>
      let dates_sorted := rev (sorted (keys data)) in
      let index :=
        if existsb (String.eqb selected_date_str) dates_sorted
        then index_of selected_date_str dates_sorted
        else 0%nat in
      nth_error dates_sorted index
  end.

(** The extra food that "Add Extra Food" appends. *)
Definition blank_extra_food : extra_item :=
  {| x_name := ""; x_calories := Some 0.0; x_protein := Some 0.0 |}.

(** * Properties *)

(** ** Rounding *)

Lemma pow10_pos (n : nat) : 0 < pow10 n.
Proof.
  unfold pow10. change 0 with (inject_Z 0). rewrite <- Zlt_Qlt.
  apply Z.pow_pos_nonneg; lia.
Qed.

Lemma pow10_nonzero (n : nat) : ~ pow10 n == 0.
Proof. intros H. pose proof (pow10_pos n) as P. rewrite H in P. lra. Qed.

#[global] Instance round_half_even_comp : Proper (Qeq ==> eq) round_half_even.
Proof.
  intros x y E. unfold round_half_even.
  rewrite (Qfloor_comp x y E).
  assert (C : (x - inject_Z (Qfloor y) ?= 1 # 2) =
              (y - inject_Z (Qfloor y) ?= 1 # 2)).
  { apply Qcompare_comp; [rewrite E|]; reflexivity. }
  rewrite C. reflexivity.
Qed.

#[global] Instance round_comp : Proper (Qeq ==> eq ==> eq) round.
Proof.
  intros x y E n m <-. unfold round.
  rewrite (round_half_even_comp (x * pow10 n) (y * pow10 n)); [reflexivity|].
  rewrite E. reflexivity.
Qed.

Lemma round_half_even_Z (z : Z) : round_half_even (inject_Z z) = z.
Proof.
  unfold round_half_even. rewrite Qfloor_Z.
  destruct (Qcompare_spec (inject_Z z - inject_Z z) (1 # 2)) as [H|H|H];
    [lra | reflexivity | lra].
Qed.

(** The rounded integer is within one half of the argument. *)
Lemma round_half_even_near (x : Q) :
  inject_Z (round_half_even x) - (1 # 2) <= x <=
  inject_Z (round_half_even x) + (1 # 2).
Proof.
  pose proof (Qfloor_le x) as Lo. pose proof (Qlt_floor x) as Hi.
  rewrite inject_Z_plus in Hi. change (inject_Z 1) with 1 in Hi.
  unfold round_half_even.
  destruct (Qcompare_spec (x - inject_Z (Qfloor x)) (1 # 2)) as [H|H|H].
  - destruct (Z.even (Qfloor x)).
    + lra.
    + rewrite inject_Z_plus. change (inject_Z 1) with 1. lra.
  - lra.
  - rewrite inject_Z_plus. change (inject_Z 1) with 1. lra.
Qed.

Lemma round_half_even_nonpos (x : Q) :
  x <= 0 -> (round_half_even x <= 0)%Z.
Proof.
  intros Hx.
  assert (F : (Qfloor x <= 0)%Z).
  { change 0%Z with (Qfloor 0). apply Qfloor_resp_le, Hx. }
  pose proof (Qfloor_le x) as Lo.
  unfold round_half_even.
  destruct (Qcompare_spec (x - inject_Z (Qfloor x)) (1 # 2)) as [H|H|H].
  - destruct (Z.even (Qfloor x)); [exact F|].
    assert (Qfloor x <> 0)%Z; [|lia].
    intros Z0. rewrite Z0 in H. change (inject_Z 0) with 0 in H. lra.
  - exact F.
  - assert (Qfloor x <> 0)%Z; [|lia].
    intros Z0. rewrite Z0 in H. change (inject_Z 0) with 0 in H. lra.
Qed.

Lemma round_nonpos (x : Q) (n : nat) : x <= 0 -> round x n <= 0.
Proof.
  intros Hx. unfold round.
  pose proof (pow10_pos n) as P.
  assert (Hk : (round_half_even (x * pow10 n) <= 0)%Z).
  { apply round_half_even_nonpos. nra. }
  rewrite Zle_Qle in Hk. change (inject_Z 0) with 0 in Hk.
  apply Qle_shift_div_r; [exact P|]. lra.
Qed.

(** [round] moves its argument by at most half a unit of the last digit. *)
Lemma round_near (x : Q) (n : nat) :
  Qabs (round x n - x) <= (1 # 2) / pow10 n.
Proof.
  pose proof (pow10_pos n) as P.
  pose proof (round_half_even_near (x * pow10 n)) as [Lo Hi].
  apply Qabs_Qle_condition. unfold round.
  set (k := inject_Z (round_half_even (x * pow10 n))) in *.
  assert (E : k / pow10 n - x == (k - x * pow10 n) / pow10 n).
  { field. apply pow10_nonzero. }
  rewrite E. split.
  - apply Qle_shift_div_l; [exact P|].
    assert (E2 : - ((1 # 2) / pow10 n) * pow10 n == - (1 # 2)).
    { field. apply pow10_nonzero. }
    rewrite E2. lra.
  - apply Qle_shift_div_r; [exact P|].
    assert (E2 : (1 # 2) / pow10 n * pow10 n == 1 # 2).
    { field. apply pow10_nonzero. }
    rewrite E2. lra.
Qed.

(** Rounding a value that is already rounded changes nothing. *)
Lemma round_idempotent (x : Q) (n : nat) : round (round x n) n = round x n.
Proof.
  unfold round at 1 3.
  rewrite (round_half_even_comp (round x n * pow10 n)
             (inject_Z (round_half_even (x * pow10 n)))).
  - rewrite round_half_even_Z. reflexivity.
  - unfold round. field. apply pow10_nonzero.
Qed.

(** ** Body metrics *)

Lemma pydiv_ok (x y : Q) : ~ y == 0 -> pydiv x y = Ok (x / y).
Proof.
  intros Hy. unfold pydiv.
  destruct (Qeq_bool y 0) eqn:E; [|reflexivity].
  apply Qeq_bool_eq in E. contradiction.
Qed.

Lemma Qle_bool_false (x y : Q) : Qle_bool x y = false <-> y < x.
Proof.
  split; intros H.
  - apply Qnot_le_lt. intros L. apply Qle_bool_iff in L. congruence.
  - destruct (Qle_bool x y) eqn:E; [|reflexivity].
    apply Qle_bool_iff in E. lra.
Qed.

Lemma steps_to_miles_calories_eq (steps : Z) :
  steps_to_miles_calories steps =
  Ok (round (inject_Z steps / 1200) 2, round (inject_Z steps / 1200 * 100) 1).
Proof. reflexivity. Qed.

Lemma calculate_bmi_guard (weight height_cm : Q) :
  weight <= 0 \/ height_cm <= 0 -> calculate_bmi weight height_cm = Ok None.
Proof.
  intros H. unfold calculate_bmi.
  assert (G : Qle_bool weight 0 || Qle_bool height_cm 0 = true).
  { apply orb_true_iff.
    destruct H as [H|H]; [left|right]; apply Qle_bool_iff; exact H. }
  rewrite G. reflexivity.
Qed.

Lemma calculate_bmi_value (weight height_cm : Q) :
  0 < weight -> 0 < height_cm ->
  calculate_bmi weight height_cm =
  Ok (Some (round (weight / (height_cm / 100) ^ 2) 2)).
Proof.
  intros Hw Hh. unfold calculate_bmi.
  assert (G : Qle_bool weight 0 || Qle_bool height_cm 0 = false).
  { apply orb_false_iff. split; apply Qle_bool_false; assumption. }
  rewrite G.
  rewrite (pydiv_ok height_cm 100) by (intros E; discriminate E).
  cbn [bind].
  rewrite pydiv_ok; [reflexivity|].
  intros E.
  assert (P : 0 < height_cm / 100) by (apply Qlt_shift_div_l; lra).
  assert (S : (height_cm / 100) ^ 2 == (height_cm / 100) * (height_cm / 100))
    by reflexivity.
  rewrite S in E. nra.
Qed.

(** ** Macro calculator *)

Lemma dict_get_In {V : Type} (d : list (string * V)) (k : string) (v : V) :
  dict_get d k = Some v -> In (k, v) d.
Proof.
  induction d as [|[k' v'] d IH]; simpl; [discriminate|].
  destruct (String.eqb_spec k' k) as [->|N].
  - intros [= ->]. left. reflexivity.
  - intros H. right. apply IH, H.
Qed.

Lemma In_dict_get {V : Type} (d : list (string * V)) (k : string) (v : V) :
  NoDup (keys d) -> In (k, v) d -> dict_get d k = Some v.
Proof.
  induction d as [|[k' v'] d IH]; simpl; [contradiction|].
  intros ND [E|I].
  - injection E as -> ->. rewrite String.eqb_refl. reflexivity.
  - inversion ND as [|? ? NI ND']; subst.
    destruct (String.eqb_spec k' k) as [->|N].
    + exfalso. apply NI. change k with (fst (k, v)). apply in_map, I.
    + apply IH; assumption.
Qed.

Section MacrosFacts.
Variable table : list (string * food_info).

Lemma add_food_skipped (total : totals) (item : string * option Q) :
  skipped table item = true -> add_food table total item = Ok total.
Proof.
  destruct item as [food [qty|]]; unfold skipped, add_food; simpl;
    [|reflexivity].
  destruct (Qeq_bool qty 0); simpl; [reflexivity|].
  destruct (dict_get table food); [discriminate|reflexivity].
Qed.

Lemma add_foods_skip_one (m1 m2 : list (string * option Q))
  (item : string * option Q) (total : totals) :
  skipped table item = true ->
  add_foods table (m1 ++ item :: m2) total = add_foods table (m1 ++ m2) total.
Proof.
  intros S. revert total.
  induction m1 as [|p m1 IH]; intros total; simpl.
  - rewrite (add_food_skipped total item S). reflexivity.
  - destruct (add_food table total p); simpl; [apply IH|reflexivity].
Qed.

Lemma add_foods_filter (drop : string * option Q -> bool)
  (m : list (string * option Q)) (total : totals) :
  (forall item, In item m -> drop item = true -> skipped table item = true) ->
  add_foods table (filter (fun item => negb (drop item)) m) total =
  add_foods table m total.
Proof.
  revert total. induction m as [|p m IH]; intros total H; simpl;
    [reflexivity|].
  destruct (drop p) eqn:D; simpl.
  - rewrite (add_food_skipped total p (H p (or_introl eq_refl) D)). simpl.
    apply IH. intros item I. apply H. right. exact I.
  - destruct (add_food table total p); simpl; [|reflexivity].
    apply IH. intros item I. apply H. right. exact I.
Qed.

Lemma add_foods_all_skipped (m : list (string * option Q)) (total : totals) :
  forallb (skipped table) m = true -> add_foods table m total = Ok total.
Proof.
  induction m as [|p m IH]; simpl; [reflexivity|].
  intros H. apply andb_true_iff in H as [S R].
  rewrite (add_food_skipped total p S). simpl. apply IH, R.
Qed.

(** An iteration can only raise at a food that is a key of the table and
    whose unit is "g": on the access to "base" or on the division by it. *)
Lemma add_food_raise (total : totals) (food : string) (qty : option Q)
  (e : exn) :
  add_food table total (food, qty) = Raise e ->
  exists q info,
    qty = Some q /\ ~ q == 0 /\
    dict_get table food = Some info /\ info_unit info = "g" /\
    (info_base info = None \/
     exists base, info_base info = Some base /\ base == 0).
Proof.
  unfold add_food. destruct qty as [q|]; [|discriminate].
  destruct (Qeq_bool q 0) eqn:Q0; [discriminate|].
  destruct (dict_get table food) as [info|] eqn:G; [|discriminate].
  destruct (String.eqb_spec (info_unit info) "g") as [U|U].
  - intros H. exists q, info.
    split; [reflexivity|]. split; [apply Qeq_bool_neq, Q0|].
    split; [reflexivity|]. split; [exact U|].
    destruct (info_base info) as [base|]; [right|left; reflexivity].
    exists base. split; [reflexivity|].
    unfold pydiv in H. destruct (Qeq_bool base 0) eqn:B; [|discriminate H].
    apply Qeq_bool_eq, B.
  - destruct (String.eqb (info_unit info) "count"); discriminate.
Qed.

Hypothesis table_ok : forallb (fun kv => base_ok (snd kv)) table = true.

Lemma table_base_positive (food : string) (info : food_info) :
  In (food, info) table -> info_unit info = "g" ->
  exists base, info_base info = Some base /\ 0 < base.
Proof.
  intros I U.
  pose proof (proj1 (forallb_forall _ _) table_ok (food, info) I) as B.
  unfold base_ok in B. simpl in B. rewrite U in B. simpl in B.
  destruct (info_base info) as [base|]; [|discriminate].
  exists base. split; [reflexivity|].
  apply Qle_bool_false. destruct (Qle_bool base 0); [discriminate|reflexivity].
Qed.

Lemma add_food_total (total : totals) (item : string * option Q) :
  exists total', add_food table total item = Ok total'.
Proof.
  destruct (add_food table total item) as [t|e] eqn:E; [exists t; reflexivity|].
  destruct item as [food qty].
  apply add_food_raise in E as (q & info & _ & _ & G & U & B).
  apply dict_get_In in G.
  destruct (table_base_positive food info G U) as (base & Hb & P).
  destruct B as [B|(b & B & Z0)]; rewrite Hb in B; [discriminate|].
  injection B as <-. lra.
Qed.

Lemma add_foods_total (m : list (string * option Q)) (total : totals) :
  exists total', add_foods table m total = Ok total'.
Proof.
  revert total. induction m as [|p m IH]; intros total; simpl.
  - exists total. reflexivity.
  - destruct (add_food_total total p) as [t E]. rewrite E. simpl. apply IH.
Qed.

Hypothesis table_nodup : NoDup (keys table).

Lemma macros_at_base (food : string) (info : food_info) :
  In (food, info) table -> info_unit info = "g" ->
  exists base total,
    info_base info = Some base /\
    calculate_macros_with table [(food, Some base)] = Ok total /\
    totals_eq total
      {| total_cal := info_cal info; total_protein := info_protein info;
         total_carbs := info_carbs info; total_fat := info_fat info |}.
Proof.
  intros I U.
  destruct (table_base_positive food info I U) as (base & Hb & P).
  assert (NZ : ~ base == 0) by lra.
  exists base. eexists. split; [exact Hb|].
  unfold calculate_macros_with, add_foods, add_food.
  destruct (Qeq_bool base 0) eqn:B0; [apply Qeq_bool_eq in B0; contradiction|].
  rewrite (In_dict_get table food info table_nodup I).
  rewrite U, Hb. simpl String.eqb. cbv iota.
  rewrite (pydiv_ok base base NZ). simpl.
  split; [reflexivity|].
  unfold totals_eq; simpl. repeat split; field; exact NZ.
Qed.

Lemma macros_of_count (food : string) (info : food_info) (qty : Q) :
  In (food, info) table -> info_unit info = "count" ->
  exists total,
    calculate_macros_with table [(food, Some qty)] = Ok total /\
    totals_eq total
      {| total_cal := info_cal info * qty;
         total_protein := info_protein info * qty;
         total_carbs := 0; total_fat := 0 |}.
Proof.
  intros I U.
  unfold calculate_macros_with, add_foods, add_food.
  destruct (Qeq_bool qty 0) eqn:Q0.
  - apply Qeq_bool_eq in Q0. eexists. split; [reflexivity|].
    unfold totals_eq; simpl. rewrite Q0. repeat split; ring.
  - rewrite (In_dict_get table food info table_nodup I).
    rewrite U. simpl. eexists. split; [reflexivity|].
    unfold totals_eq; simpl. repeat split; ring.
Qed.
End MacrosFacts.

Lemma FOOD_DATA_ok : forallb (fun kv => base_ok (snd kv)) FOOD_DATA = true.
Proof. reflexivity. Qed.

Lemma FOOD_DATA_nodup : NoDup (keys FOOD_DATA).
Proof.
  unfold keys; simpl.
  repeat (constructor; [simpl; intuition discriminate|]). constructor.
Qed.

(** C5: for every food of [FOOD_DATA] whose unit is "g", the macros of the
    mapping that holds only that food at its base quantity are the four table
    values of the food. *)
Theorem calculate_macros_at_base (food : string) (info : food_info) :
  In (food, info) FOOD_DATA -> info_unit info = "g" ->
  exists base total,
    info_base info = Some base /\
    calculate_macros [(food, Some base)] = Ok total /\
    totals_eq total
      {| total_cal := info_cal info; total_protein := info_protein info;
         total_carbs := info_carbs info; total_fat := info_fat info |}.
Proof.
  apply (macros_at_base FOOD_DATA FOOD_DATA_ok FOOD_DATA_nodup).
Qed.

Lemma calculate_macros_at_base_witness :
  In ("Oats", per_grams 45 170 10 28 0) FOOD_DATA /\
  info_unit (per_grams 45 170 10 28 0) = "g" /\
  exists base total,
    info_base (per_grams 45 170 10 28 0) = Some base /\
    calculate_macros [("Oats", Some base)] = Ok total /\
    totals_eq total
      {| total_cal := 170; total_protein := 10;
         total_carbs := 28; total_fat := 0 |}.
Proof.
  split; [left; reflexivity|]. split; [reflexivity|].
  apply (calculate_macros_at_base "Oats" (per_grams 45 170 10 28 0));
    [left; reflexivity | reflexivity].
Defined.

(** Every count-based food adds its calories and protein times the quantity,
    and nothing to carbs and fat, whatever the table holds for them. *)
Lemma calculate_macros_of_count (food : string) (info : food_info) (qty : Q) :
  In (food, info) FOOD_DATA -> info_unit info = "count" ->
  exists total,
    calculate_macros [(food, Some qty)] = Ok total /\
    totals_eq total
      {| total_cal := info_cal info * qty;
         total_protein := info_protein info * qty;
         total_carbs := 0; total_fat := 0 |}.
Proof. apply (macros_of_count FOOD_DATA FOOD_DATA_nodup). Qed.

(** C6: the table does not carry zero carbs and fat for every count-based
    food.  "Tortilla" is count-based with carbs 12 and fat 2, and the macros
    of one tortilla report carbs 0 and fat 0. *)
Theorem tortilla_carbs_and_fat_dropped :
  exists info total,
    dict_get FOOD_DATA "Tortilla" = Some info /\
    info_unit info = "count" /\
    info_carbs info == 12 /\ info_fat info == 2 /\
    calculate_macros [("Tortilla", Some 1)] = Ok total /\
    total_cal total == 70 /\ total_protein total == 5 /\
    total_carbs total == 0 /\ total_fat total == 0.
Proof.
  eexists; eexists. repeat split.
Qed.

(** C8: removing pairs that the loop skips (quantity [None] or zero, or a
    food that is not in the table) does not change the result, be it one pair
    at any position or all the pairs picked by a predicate; a mapping that is
    empty or holds only such pairs gives all-zero totals; no mapping makes
    the function raise. *)
Theorem calculate_macros_skips (m : list (string * option Q)) :
  (forall m1 item m2,
     m = (m1 ++ item :: m2)%list -> skipped FOOD_DATA item = true ->
     calculate_macros (m1 ++ m2) = calculate_macros m) /\
  (forall drop : string * option Q -> bool,
     (forall item, In item m -> drop item = true ->
                   skipped FOOD_DATA item = true) ->
     calculate_macros (filter (fun item => negb (drop item)) m) =
     calculate_macros m) /\
  (forallb (skipped FOOD_DATA) m = true ->
   calculate_macros m = Ok zero_totals) /\
  calculate_macros [] = Ok zero_totals /\
  (exists total, calculate_macros m = Ok total).
Proof.
  repeat split.
  - intros m1 item m2 -> S. symmetry. apply add_foods_skip_one, S.
  - intros drop H. apply add_foods_filter, H.
  - apply add_foods_all_skipped.
  - apply add_foods_total, FOOD_DATA_ok.
Qed.

Lemma calculate_macros_skips_witness :
  [("Oats", Some 90); ("Pizza", Some 2); ("Nuts", Some 0); ("Yogurt", None)] =
    ([("Oats", Some 90)] ++
     ("Pizza", Some 2) :: [("Nuts", Some 0); ("Yogurt", None)])%list /\
  skipped FOOD_DATA ("Pizza", Some 2) = true /\
  calculate_macros
    ([("Oats", Some 90)] ++ [("Nuts", Some 0); ("Yogurt", None)]) =
  calculate_macros
    [("Oats", Some 90); ("Pizza", Some 2); ("Nuts", Some 0); ("Yogurt", None)].
Proof.
  split; [reflexivity|]. split; [reflexivity|].
  apply (proj1 (calculate_macros_skips
                  [("Oats", Some 90); ("Pizza", Some 2); ("Nuts", Some 0);
                   ("Yogurt", None)])
           [("Oats", Some 90)] ("Pizza", Some 2)
           [("Nuts", Some 0); ("Yogurt", None)]);
    reflexivity.
Defined.

(** C10: [calculate_macros] returns totals on every mapping.  An iteration
    can raise only at a key of the table whose unit is "g", on "base"; every
    such entry of [FOOD_DATA] has a positive "base"; so neither the lookup nor
    the division fails. *)
Theorem calculate_macros_total (food_inputs : list (string * option Q)) :
  (forall total food qty e,
     add_food FOOD_DATA total (food, qty) = Raise e ->
     exists q info,
       qty = Some q /\ ~ q == 0 /\
       dict_get FOOD_DATA food = Some info /\ info_unit info = "g" /\
       (info_base info = None \/
        exists base, info_base info = Some base /\ base == 0)) /\
  (forall food info,
     In (food, info) FOOD_DATA -> info_unit info = "g" ->
     exists base, info_base info = Some base /\ 0 < base) /\
  (exists total, calculate_macros food_inputs = Ok total).
Proof.
  split; [|split].
  - apply add_food_raise.
  - apply table_base_positive, FOOD_DATA_ok.
  - apply add_foods_total, FOOD_DATA_ok.
Qed.

Lemma calculate_macros_total_witness :
  In ("Nuts", per_grams 15 95 2 4 9) FOOD_DATA /\
  info_unit (per_grams 15 95 2 4 9) = "g" /\
  exists base, info_base (per_grams 15 95 2 4 9) = Some base /\ 0 < base.
Proof.
  split; [do 4 right; left; reflexivity|]. split; [reflexivity|].
  apply (proj1 (proj2 (calculate_macros_total [])) "Nuts"
           (per_grams 15 95 2 4 9));
    [do 4 right; left; reflexivity | reflexivity].
Defined.

(** The loop does raise on a table that breaks the invariant of
    [FOOD_DATA]: a "g" entry without "base", or with a zero "base". *)
Example calculate_macros_with_bad_table :
  calculate_macros_with
    [("Rice", {| info_unit := "g"; info_base := None; info_cal := 1;
                 info_protein := 1; info_carbs := 1; info_fat := 1 |})]
    [("Rice", Some 1)] = Raise (KeyError "base") /\
  calculate_macros_with [("Rice", per_grams 0 1 1 1 1)] [("Rice", Some 1)] =
    Raise ZeroDivisionError.
Proof. split; reflexivity. Qed.

(** ** Saving an entry *)

Lemma calculate_bmi_total (weight height_cm : Q) :
  exists bmi, calculate_bmi weight height_cm = Ok bmi.
Proof.
  destruct (Qlt_le_dec 0 weight) as [Hw|Hw].
  - destruct (Qlt_le_dec 0 height_cm) as [Hh|Hh].
    + eexists. apply calculate_bmi_value; assumption.
    + exists None. apply calculate_bmi_guard. right. exact Hh.
  - exists None. apply calculate_bmi_guard. left. exact Hw.
Qed.

(** 90 g of oats, 2400 steps, 70 kg and 170 cm. *)
Example save_entry_oats :
  exists e,
    save_entry "2024-01-03" [("Oats", Some 90)] [] 70 170 30 2400 "" = Ok e /\
    e_total_calories e = Some (PyNum 340.0) /\
    e_total_protein e = Some (PyNum 20.0) /\
    e_miles_walked e = Some (PyNum 2.00) /\
    e_calories_burned e = Some (PyNum 200.0) /\
    e_net_calories e = Some (PyNum 140.0) /\
    e_bmi e = Some (PyNum 24.22).
Proof. eexists. repeat split. Qed.

(** ** Weekly report: the rows *)

Lemma cell_plain_rendered (field : option value) :
  rendered "-" (fun q => q) field (cell_plain (get field PyNone)).
Proof.
  destruct field as [[|q]|]; simpl.
  - apply rendered_default. right. left. reflexivity.
  - destruct (Qeq_bool q 0) eqn:E; simpl.
    + apply rendered_default. right. right. exists q.
      split; [reflexivity|]. apply Qeq_bool_eq, E.
    + apply (rendered_number "-" (fun q => q) _ q eq_refl).
      apply Qeq_bool_neq, E.
  - apply rendered_default. left. reflexivity.
Qed.

Lemma cell_rounded_rendered (field : option value) :
  rendered "0" (fun q => round q 1) field (cell_rounded (get field (PyNum 0))).
Proof.
  destruct field as [[|q]|]; simpl.
  - apply rendered_default. right. left. reflexivity.
  - destruct (Qeq_bool q 0) eqn:E; simpl.
    + apply rendered_default. right. right. exists q.
      split; [reflexivity|]. apply Qeq_bool_eq, E.
    + apply (rendered_number "0" (fun q => round q 1) _ q eq_refl).
      apply Qeq_bool_neq, E.
  - apply rendered_default. left. reflexivity.
Qed.

(** An entry without the keys "weight", "total_calories", "total_protein",
    "net_calories" and "bmi" gives the same row as an entry that stores zero
    under each of them; the missing totals are shown as the number "0". *)
Lemma missing_field_shown_as_zero :
  e_total_calories entry_without_totals = None /\
  e_total_calories entry_with_zeros = Some (PyNum 0) /\
  e_weight entry_without_totals = None /\
  e_weight entry_with_zeros = Some (PyNum 0) /\
  summary_rows [entry_without_totals] = summary_rows [entry_with_zeros] /\
  summary_rows [entry_without_totals] =
    [ {| row_date := Text "2024-01-03"; row_weight := Text "-";
         row_calories := Text "0"; row_protein := Text "0";
         row_net := Text "0"; row_bmi := Text "-" |} ].
Proof. repeat split. Qed.

(** C9 (amended): the rows are a projection of the entries, one row per
    entry in the same order, with the date passed through.  Weight and BMI
    are shown as "-" when missing, [None] or zero and as the stored number
    otherwise; total calories, total protein and net calories are shown as "0"
    when missing, [None] or zero and as the stored number rounded to 1 decimal
    otherwise. *)
Theorem summary_rows_spec (entries : list entry) :
  List.length (summary_rows entries) = List.length entries /\
  forall i e,
    nth_error entries i = Some e ->
    exists r,
      nth_error (summary_rows entries) i = Some r /\
      row_date r = Text (e_date e) /\
      rendered "-" (fun q => q) (e_weight e) (row_weight r) /\
      rendered "0" (fun q => round q 1) (e_total_calories e) (row_calories r) /\
      rendered "0" (fun q => round q 1) (e_total_protein e) (row_protein r) /\
      rendered "0" (fun q => round q 1) (e_net_calories e) (row_net r) /\
      rendered "-" (fun q => q) (e_bmi e) (row_bmi r).
Proof.
  unfold summary_rows. split; [apply length_map|].
  intros i e H. exists (summary_row e).
  split; [apply map_nth_error, H|].
  split; [reflexivity|].
  unfold summary_row; cbn [row_weight row_calories row_protein row_net row_bmi].
  repeat split;
    first [apply cell_plain_rendered | apply cell_rounded_rendered].
Qed.

Lemma summary_rows_spec_witness :
  nth_error [saved_on "2024-01-03"] 0 = Some (saved_on "2024-01-03") /\
  exists r,
    nth_error (summary_rows [saved_on "2024-01-03"]) 0 = Some r /\
    row_date r = Text (e_date (saved_on "2024-01-03")) /\
    rendered "-" (fun q => q)
      (e_weight (saved_on "2024-01-03")) (row_weight r) /\
    rendered "0" (fun q => round q 1)
      (e_total_calories (saved_on "2024-01-03")) (row_calories r) /\
    rendered "0" (fun q => round q 1)
      (e_total_protein (saved_on "2024-01-03")) (row_protein r) /\
    rendered "0" (fun q => round q 1)
      (e_net_calories (saved_on "2024-01-03")) (row_net r) /\
    rendered "-" (fun q => q) (e_bmi (saved_on "2024-01-03")) (row_bmi r).
Proof.
  split; [reflexivity|].
  apply (proj2 (summary_rows_spec [saved_on "2024-01-03"]) 0%nat
           (saved_on "2024-01-03")).
  reflexivity.
Defined.

Lemma generate_weekly_report_rows (data : list (string * entry))
  (start_date end_date : string) (p : pdf) :
  generate_weekly_report data start_date end_date = Some p ->
  pdf_rows p = summary_rows (select_entries data start_date end_date) /\
  pdf_filename p =
    "weekly_report_" ++ start_date ++ "_to_" ++ end_date ++ ".pdf".
Proof.
  unfold generate_weekly_report.
  destruct (select_entries data start_date end_date); [discriminate|].
  intros [= <-]. split; reflexivity.
Qed.

Lemma generate_weekly_report_none (data : list (string * entry))
  (start_date end_date : string) :
  generate_weekly_report data start_date end_date = None <->
  select_entries data start_date end_date = [].
Proof.
  unfold generate_weekly_report.
  destruct (select_entries data start_date end_date); split;
    intros H; try reflexivity; discriminate H.
Qed.

(** ** Weekly report: the selection *)

(** The selection holds exactly the values whose key lies between the two
    bounds, both included. *)
Lemma select_entries_in_range (data : list (string * entry))
  (start_date end_date : string) (e : entry) :
  In e (select_entries data start_date end_date) <->
  exists k, In (k, e) data /\
            String.leb start_date k = true /\ String.leb k end_date = true.
Proof.
  unfold select_entries. rewrite in_map_iff. split.
  - intros ([k e'] & <- & H). apply filter_In in H as [I R].
    unfold in_range in R. apply andb_true_iff in R. exists k. tauto.
  - intros (k & I & L1 & L2). exists (k, e). split; [reflexivity|].
    apply filter_In. split; [exact I|].
    unfold in_range; simpl. rewrite L1, L2. reflexivity.
Qed.

(** The selection keeps the order of the store. *)
Lemma select_entries_app (d1 d2 : list (string * entry))
  (start_date end_date : string) :
  select_entries (d1 ++ d2) start_date end_date =
  (select_entries d1 start_date end_date ++
   select_entries d2 start_date end_date)%list.
Proof. unfold select_entries. rewrite filter_app, map_app. reflexivity. Qed.

Lemma insert_sorted_ascending (k : string) (l : list string) :
  ascending l -> ascending (insert_sorted k l).
Proof.
  unfold ascending. induction l as [|k' l IH]; intros S; simpl.
  - repeat constructor.
  - destruct (String.leb k k') eqn:L.
    + constructor; [exact S|]. constructor. exact L.
    + assert (L' : String.leb k' k = true).
      { destruct (String.leb_total k k') as [T|T]; congruence. }
      inversion S as [|? ? S' H]; subst.
      constructor; [apply IH, S'|].
      destruct l as [|k'' l]; simpl.
      * constructor. exact L'.
      * destruct (String.leb k k''); constructor; [exact L'|].
        inversion H; assumption.
Qed.

Lemma sorted_ascending (l : list string) : ascending (sorted l).
Proof.
  induction l as [|k l IH]; simpl.
  - constructor.
  - apply insert_sorted_ascending, IH.
Qed.

(** The page's own filter does put the dates in ascending order. *)
Lemma filtered_dates_ascending (data : list (string * entry))
  (seven_days_ago today_str : string) :
  ascending (filtered_dates data seven_days_ago today_str).
Proof. apply sorted_ascending. Qed.

(** C2: on a store whose ten January entries were saved from the 10th back
    to the 1st, the selection for 2024-01-03..2024-01-05 made by
    [generate_weekly_report] holds the three entries of those dates and no
    other, in the order 05, 04, 03 in which they were saved, which is not
    ascending; the page's [filtered_dates] on the same store is ascending. *)
Theorem select_entries_keeps_insertion_order :
  keys (store_of january_descending) = january_descending /\
  map e_date (select_entries (store_of january_descending)
                "2024-01-03" "2024-01-05") =
    ["2024-01-05"; "2024-01-04"; "2024-01-03"] /\
  ~ ascending (map e_date (select_entries (store_of january_descending)
                             "2024-01-03" "2024-01-05")) /\
  filtered_dates (store_of january_descending) "2024-01-03" "2024-01-05" =
    ["2024-01-03"; "2024-01-04"; "2024-01-05"].
Proof.
  split; [reflexivity|]. split; [reflexivity|]. split; [|reflexivity].
  change (map e_date (select_entries (store_of january_descending)
                        "2024-01-03" "2024-01-05"))
    with ["2024-01-05"; "2024-01-04"; "2024-01-03"].
  intros S. inversion S as [|? ? _ H]; subst.
  inversion H as [|? ? L]; subst. discriminate L.
Qed.

(** * Further properties *)

(** ** Order on strings *)

Lemma ascii_compare_lt_trans (a b c : Ascii.ascii) :
  Ascii.compare a b = Lt -> Ascii.compare b c = Lt -> Ascii.compare a c = Lt.
Proof.
  unfold Ascii.compare. rewrite !N.compare_lt_iff. apply N.lt_trans.
Qed.

Lemma string_compare_refl (s : string) : String.compare s s = Eq.
Proof.
  induction s as [|a s IH]; simpl; [reflexivity|].
  unfold Ascii.compare. rewrite N.compare_refl. exact IH.
Qed.

Lemma string_compare_lt_trans (s1 s2 s3 : string) :
  String.compare s1 s2 = Lt -> String.compare s2 s3 = Lt ->
  String.compare s1 s3 = Lt.
Proof.
  revert s2 s3. induction s1 as [|a s1 IH]; intros [|b s2] [|c s3]; simpl;
    try discriminate; try reflexivity.
  destruct (Ascii.compare a b) eqn:AB; try discriminate;
    destruct (Ascii.compare b c) eqn:BC; try discriminate; intros H1 H2.
  - apply Ascii.compare_eq_iff in AB, BC. subst.
    unfold Ascii.compare. rewrite N.compare_refl. apply (IH s2 s3 H1 H2).
  - apply Ascii.compare_eq_iff in AB. subst. rewrite BC. reflexivity.
  - apply Ascii.compare_eq_iff in BC. subst. rewrite AB. reflexivity.
  - rewrite (ascii_compare_lt_trans a b c AB BC). reflexivity.
Qed.

Lemma leb_refl (s : string) : String.leb s s = true.
Proof. unfold String.leb. rewrite string_compare_refl. reflexivity. Qed.

Lemma leb_trans (s1 s2 s3 : string) :
  String.leb s1 s2 = true -> String.leb s2 s3 = true ->
  String.leb s1 s3 = true.
Proof.
  unfold String.leb.
  destruct (String.compare s1 s2) eqn:C12; try discriminate;
    destruct (String.compare s2 s3) eqn:C23; try discriminate; intros _ _.
  - apply String.compare_eq_iff in C12, C23. subst.
    rewrite string_compare_refl. reflexivity.
  - apply String.compare_eq_iff in C12. subst. rewrite C23. reflexivity.
  - apply String.compare_eq_iff in C23. subst. rewrite C12. reflexivity.
  - rewrite (string_compare_lt_trans s1 s2 s3 C12 C23). reflexivity.
Qed.

Lemma ascending_strongly (l : list string) :
  ascending l -> StronglySorted (fun a b => String.leb a b = true) l.
Proof.
  apply Sorted_StronglySorted. intros a b c. apply leb_trans.
Qed.

Lemma ascending_filter (f : string -> bool) (l : list string) :
  ascending l -> ascending (filter f l).
Proof.
  intros S. apply ascending_strongly in S.
  apply StronglySorted_Sorted.
  induction S as [|a l S IH F]; simpl; [constructor|].
  destruct (f a); [|exact IH].
  constructor; [exact IH|].
  rewrite Forall_forall in *. intros x I. apply filter_In in I as [I _].
  apply F, I.
Qed.

Lemma insert_sorted_perm (k : string) (l : list string) :
  Permutation (insert_sorted k l) (k :: l).
Proof.
  induction l as [|k' l IH]; simpl; [reflexivity|].
  destruct (String.leb k k'); [reflexivity|].
  rewrite IH. apply perm_swap.
Qed.

Lemma sorted_perm (l : list string) : Permutation (sorted l) l.
Proof.
  induction l as [|k l IH]; simpl; [reflexivity|].
  rewrite insert_sorted_perm, IH. reflexivity.
Qed.

Lemma last_default (c : string) (rest : list string) (d d' : string) :
  last (c :: rest) d = last (c :: rest) d'.
Proof.
  revert c. induction rest as [|b rest IH]; intros c; [reflexivity|].
  change (last (b :: rest) d = last (b :: rest) d'). apply IH.
Qed.

Lemma last_cons (b : string) (rest : list string) (d : string) :
  last (b :: rest) d = last rest b.
Proof.
  destruct rest as [|c rest]; [reflexivity|].
  change (last (c :: rest) d = last (c :: rest) b). apply last_default.
Qed.

Lemma last_In (first : string) (rest : list string) :
  In (last rest first) (first :: rest).
Proof.
  revert first. induction rest as [|b rest IH]; intros first.
  - left. reflexivity.
  - right. rewrite last_cons. apply IH.
Qed.

(** An ascending list lies between its first and its last element. *)
Lemma ascending_bounds (first : string) (rest : list string) (k : string) :
  ascending (first :: rest) -> In k (first :: rest) ->
  String.leb first k = true /\ String.leb k (last rest first) = true.
Proof.
  intros S. apply ascending_strongly in S. revert first S k.
  induction rest as [|b rest IH]; intros first S k I.
  - destruct I as [<-|[]]. simpl. split; apply leb_refl.
  - inversion S as [|? ? S' F]; subst.
    rewrite Forall_forall in F. rewrite last_cons.
    destruct I as [<-|I].
    + split; [apply leb_refl|]. apply F, last_In.
    + split; [apply F, I|]. apply (IH b S' k I).
Qed.

(** ** More on rounding *)

Lemma round_half_even_floor (x : Q) :
  (Qfloor x <= round_half_even x <= Qfloor x + 1)%Z.
Proof.
  unfold round_half_even.
  destruct (x - inject_Z (Qfloor x) ?= 1 # 2); [|lia|lia].
  destruct (Z.even (Qfloor x)); lia.
Qed.

Lemma round_half_even_monotone (x y : Q) :
  x <= y -> (round_half_even x <= round_half_even y)%Z.
Proof.
  intros L.
  pose proof (Qfloor_resp_le x y L) as F.
  pose proof (round_half_even_floor x) as Bx.
  pose proof (round_half_even_floor y) as By.
  destruct (Z.eq_dec (Qfloor x) (Qfloor y)) as [E|N]; [|lia].
  clear Bx By. unfold round_half_even. rewrite <- E.
  destruct (Qcompare_spec (x - inject_Z (Qfloor x)) (1 # 2)) as [Hx|Hx|Hx];
    destruct (Qcompare_spec (y - inject_Z (Qfloor x)) (1 # 2)) as [Hy|Hy|Hy];
    try lia; try lra;
    destruct (Z.even (Qfloor x)); lia.
Qed.

Lemma round_monotone (x y : Q) (n : nat) : x <= y -> round x n <= round y n.
Proof.
  intros L. unfold round. pose proof (pow10_pos n) as P.
  assert (M : (round_half_even (x * pow10 n) <=
               round_half_even (y * pow10 n))%Z).
  { apply round_half_even_monotone. nra. }
  rewrite Zle_Qle in M.
  apply Qle_shift_div_l; [exact P|].
  assert (E : inject_Z (round_half_even (x * pow10 n)) / pow10 n * pow10 n ==
              inject_Z (round_half_even (x * pow10 n))).
  { field. apply pow10_nonzero. }
  rewrite E. exact M.
Qed.

Lemma round_nonneg (x : Q) (n : nat) : 0 <= x -> 0 <= round x n.
Proof.
  intros H. assert (Z0 : round 0 n == 0).
  { unfold round. rewrite (round_half_even_comp (0 * pow10 n) (inject_Z 0)).
    - rewrite round_half_even_Z. field. apply pow10_nonzero.
    - change (inject_Z 0) with 0. ring. }
  rewrite <- Z0. apply round_monotone, H.
Qed.

(** ** More on the body metrics *)

Lemma Qdiv_le_compat (a b c : Q) : a <= b -> 0 < c -> a / c <= b / c.
Proof.
  intros L P. unfold Qdiv. apply Qmult_le_compat_r; [exact L|].
  apply Qlt_le_weak, Qinv_lt_0_compat, P.
Qed.

Lemma Qdiv_le_anti (a c1 c2 : Q) :
  0 <= a -> 0 < c1 -> c1 <= c2 -> a / c2 <= a / c1.
Proof.
  intros A P L. assert (P2 : 0 < c2) by lra.
  apply Qle_shift_div_l; [exact P|].
  assert (E : a / c2 * c1 == a * c1 / c2) by (field; lra).
  rewrite E. apply Qle_shift_div_r; [exact P2|]. nra.
Qed.

(** X1: more steps never give fewer miles or fewer calories burned. *)
Theorem steps_to_miles_calories_monotone (steps1 steps2 : Z) :
  (steps1 <= steps2)%Z ->
  exists miles1 cal1 miles2 cal2,
    steps_to_miles_calories steps1 = Ok (miles1, cal1) /\
    steps_to_miles_calories steps2 = Ok (miles2, cal2) /\
    miles1 <= miles2 /\ cal1 <= cal2.
Proof.
  intros L. do 4 eexists.
  split; [apply steps_to_miles_calories_eq|].
  split; [apply steps_to_miles_calories_eq|].
  rewrite Zle_Qle in L.
  assert (D : inject_Z steps1 / 1200 <= inject_Z steps2 / 1200).
  { apply Qdiv_le_compat; [exact L|reflexivity]. }
  split; apply round_monotone; lra.
Qed.

Lemma steps_to_miles_calories_monotone_witness :
  (1200 <= 2400)%Z /\
  exists miles1 cal1 miles2 cal2,
    steps_to_miles_calories 1200 = Ok (miles1, cal1) /\
    steps_to_miles_calories 2400 = Ok (miles2, cal2) /\
    miles1 <= miles2 /\ cal1 <= cal2.
Proof.
  split; [lia|]. apply (steps_to_miles_calories_monotone 1200 2400). lia.
Defined.

(** X2: on the range of the steps widget, 0 to 100000, nothing is raised,
    the miles lie between 0 and 83.33 and the calories burned between 0 and
    8333.3. *)
Theorem steps_to_miles_calories_range (steps : Z) :
  (0 <= steps <= 100000)%Z ->
  exists miles cal_burned,
    steps_to_miles_calories steps = Ok (miles, cal_burned) /\
    0 <= miles <= 83.33 /\
    0 <= cal_burned <= 8333.3.
Proof.
  intros [Lo Hi]. do 2 eexists.
  split; [apply steps_to_miles_calories_eq|].
  rewrite Zle_Qle in Lo, Hi.
  change (inject_Z 0) with 0 in Lo.
  change (inject_Z 100000) with 100000 in Hi.
  assert (D0 : 0 <= inject_Z steps / 1200).
  { apply Qle_shift_div_l; lra. }
  assert (D1 : inject_Z steps / 1200 <= 100000 / 1200).
  { apply Qdiv_le_compat; [exact Hi|reflexivity]. }
  split; split.
  - apply round_nonneg, D0.
  - change 83.33 with (round (100000 / 1200) 2). apply round_monotone, D1.
  - apply round_nonneg. lra.
  - change 8333.3 with (round (100000 / 1200 * 100) 1).
    apply round_monotone. lra.
Qed.

Lemma steps_to_miles_calories_range_witness :
  (0 <= 2400 <= 100000)%Z /\
  exists miles cal_burned,
    steps_to_miles_calories 2400 = Ok (miles, cal_burned) /\
    0 <= miles <= 83.33 /\
    0 <= cal_burned <= 8333.3.
Proof.
  split; [lia|]. apply (steps_to_miles_calories_range 2400). lia.
Defined.

Lemma bmi_quotient_eq (weight height_cm : Q) :
  0 < height_cm ->
  weight / (height_cm / 100) ^ 2 ==
  weight * 10000 / (height_cm * height_cm).
Proof.
  intros Hh.
  assert (S : (height_cm / 100) ^ 2 == (height_cm / 100) * (height_cm / 100))
    by reflexivity.
  rewrite S. field. lra.
Qed.

(** X3: the BMI does not decrease when the weight grows and does not
    increase when the height grows. *)
Theorem calculate_bmi_monotone (w1 w2 h1 h2 : Q) :
  0 < w1 -> w1 <= w2 -> 0 < h1 -> h1 <= h2 ->
  exists light_tall heavy_short,
    calculate_bmi w1 h2 = Ok (Some light_tall) /\
    calculate_bmi w2 h1 = Ok (Some heavy_short) /\
    light_tall <= heavy_short.
Proof.
  intros Hw1 Hw Hh1 Hh. do 2 eexists.
  split; [apply calculate_bmi_value; lra|].
  split; [apply calculate_bmi_value; lra|].
  apply round_monotone.
  rewrite !bmi_quotient_eq by lra.
  assert (P1 : 0 < h1 * h1) by nra.
  assert (S : h1 * h1 <= h2 * h2) by nra.
  apply Qle_trans with (w1 * 10000 / (h1 * h1)).
  - apply Qdiv_le_anti; [lra | exact P1 | exact S].
  - apply Qdiv_le_compat; [lra | exact P1].
Qed.

Lemma calculate_bmi_monotone_witness :
  0 < 60 /\ 60 <= 70 /\ 0 < 170 /\ 170 <= 180 /\
  exists light_tall heavy_short,
    calculate_bmi 60 180 = Ok (Some light_tall) /\
    calculate_bmi 70 170 = Ok (Some heavy_short) /\
    light_tall <= heavy_short.
Proof.
  repeat (split; [reflexivity || (intros E; discriminate E)|]).
  apply (calculate_bmi_monotone 60 70 170 180);
    reflexivity || (intros E; discriminate E).
Defined.

(** X4: on the ranges of the weight and height widgets, 20 to 300 kg and
    50 to 250 cm, the BMI is a number between 3.2 and 1200, never [None]. *)
Theorem calculate_bmi_on_form_range (weight height_cm : Q) :
  20 <= weight <= 300 -> 50 <= height_cm <= 250 ->
  exists bmi,
    calculate_bmi weight height_cm = Ok (Some bmi) /\ 3.2 <= bmi <= 1200.
Proof.
  intros [Wl Wh] [Hl Hh]. eexists.
  split; [apply calculate_bmi_value; lra|].
  assert (P : 0 < height_cm * height_cm) by nra.
  split.
  - apply Qle_trans with (round 3.2 2); [intros E; discriminate E|].
    apply round_monotone.
    rewrite bmi_quotient_eq by lra.
    apply Qle_shift_div_l; [exact P|]. nra.
  - apply Qle_trans with (round 1200 2); [|intros E; discriminate E].
    apply round_monotone.
    rewrite bmi_quotient_eq by lra.
    apply Qle_shift_div_r; [exact P|]. nra.
Qed.

Lemma calculate_bmi_on_form_range_witness :
  20 <= 70 <= 300 /\ 50 <= 170 <= 250 /\
  exists bmi, calculate_bmi 70 170 = Ok (Some bmi) /\ 3.2 <= bmi <= 1200.
Proof.
  assert (A : 20 <= 70 <= 300) by (split; intros E; discriminate E).
  assert (B : 50 <= 170 <= 250) by (split; intros E; discriminate E).
  split; [exact A|]. split; [exact B|].
  apply (calculate_bmi_on_form_range 70 170 A B).
Defined.

(** ** More on the macro calculator *)

Ltac totals_arith :=
  unfold totals_eq, totals_add, totals_nonneg in *;
  cbn [total_cal total_protein total_carbs total_fat] in *;
  intuition lra.

Lemma totals_eq_refl (t : totals) : totals_eq t t.
Proof. totals_arith. Qed.

(** What an iteration adds does not depend on the running total. *)
Lemma add_food_shift (table : list (string * food_info))
  (a a' r : totals) (item : string * option Q) :
  add_food table a item = Ok r ->
  exists r', add_food table a' item = Ok r' /\
             totals_eq (totals_add r a') (totals_add r' a).
Proof.
  destruct item as [food [q|]]; unfold add_food.
  2:{ intros [= <-]. exists a'. split; [reflexivity|totals_arith]. }
  destruct (Qeq_bool q 0).
  { intros [= <-]. exists a'. split; [reflexivity|totals_arith]. }
  destruct (dict_get table food) as [info|].
  2:{ intros [= <-]. exists a'. split; [reflexivity|totals_arith]. }
  destruct (String.eqb (info_unit info) "g").
  - destruct (info_base info) as [base|]; [|discriminate].
    destruct (pydiv q base) as [ratio|]; [|discriminate].
    cbn [bind]. intros [= <-]. eexists. split; [reflexivity|totals_arith].
  - destruct (String.eqb (info_unit info) "count").
    + intros [= <-]. eexists. split; [reflexivity|totals_arith].
    + intros [= <-]. exists a'. split; [reflexivity|totals_arith].
Qed.

Lemma add_foods_shift (table : list (string * food_info))
  (m : list (string * option Q)) (a a' r : totals) :
  add_foods table m a = Ok r ->
  exists r', add_foods table m a' = Ok r' /\
             totals_eq (totals_add r a') (totals_add r' a).
Proof.
  revert a a'. induction m as [|item m IH]; intros a a'; simpl.
  - intros [= <-]. exists a'. split; [reflexivity|totals_arith].
  - destruct (add_food table a item) as [a1|] eqn:E1; [|discriminate].
    cbn [bind]. intros H.
    destruct (add_food_shift table a a' a1 item E1) as (b1 & E2 & S1).
    rewrite E2. cbn [bind].
    destruct (IH a1 b1 H) as (r' & E3 & S2).
    exists r'. split; [exact E3|]. totals_arith.
Qed.

Lemma add_foods_app (table : list (string * food_info))
  (m1 m2 : list (string * option Q)) (a : totals) :
  add_foods table (m1 ++ m2) a =
  bind (add_foods table m1 a) (add_foods table m2).
Proof.
  revert a. induction m1 as [|item m1 IH]; intros a; simpl; [reflexivity|].
  destruct (add_food table a item); cbn [bind]; [apply IH|reflexivity].
Qed.

(** X7: a food measured in grams contributes its four table values times
    quantity / base, whatever the quantity. *)
Theorem calculate_macros_of_grams (food : string) (info : food_info) (qty : Q) :
  In (food, info) FOOD_DATA -> info_unit info = "g" ->
  exists base total,
    info_base info = Some base /\ 0 < base /\
    calculate_macros [(food, Some qty)] = Ok total /\
    totals_eq total
      {| total_cal := info_cal info * (qty / base);
         total_protein := info_protein info * (qty / base);
         total_carbs := info_carbs info * (qty / base);
         total_fat := info_fat info * (qty / base) |}.
Proof.
  intros I U.
  destruct (table_base_positive FOOD_DATA FOOD_DATA_ok food info I U)
    as (base & Hb & P).
  assert (NZ : ~ base == 0) by lra.
  exists base.
  unfold calculate_macros, calculate_macros_with, add_foods, add_food.
  destruct (Qeq_bool qty 0) eqn:Q0.
  - apply Qeq_bool_eq in Q0. eexists.
    split; [exact Hb|]. split; [exact P|]. split; [reflexivity|].
    unfold totals_eq, zero_totals; simpl. rewrite Q0.
    repeat split; field; exact NZ.
  - rewrite (In_dict_get FOOD_DATA food info FOOD_DATA_nodup I).
    rewrite U, Hb. simpl String.eqb. cbv iota.
    rewrite (pydiv_ok qty base NZ). simpl. eexists.
    split; [reflexivity|]. split; [exact P|]. split; [reflexivity|].
    unfold totals_eq; simpl. repeat split; ring.
Qed.

Lemma calculate_macros_of_grams_witness :
  In ("Oats", per_grams 45 170 10 28 0) FOOD_DATA /\
  info_unit (per_grams 45 170 10 28 0) = "g" /\
  exists base total,
    info_base (per_grams 45 170 10 28 0) = Some base /\ 0 < base /\
    calculate_macros [("Oats", Some 90)] = Ok total /\
    totals_eq total
      {| total_cal := 170 * (90 / base); total_protein := 10 * (90 / base);
         total_carbs := 28 * (90 / base); total_fat := 0 * (90 / base) |}.
Proof.
  split; [left; reflexivity|]. split; [reflexivity|].
  apply (calculate_macros_of_grams "Oats" (per_grams 45 170 10 28 0) 90);
    [left; reflexivity | reflexivity].
Defined.

Lemma FOOD_DATA_nonneg :
  forallb (fun kv => info_nonneg (snd kv)) FOOD_DATA = true.
Proof. reflexivity. Qed.

Lemma add_food_nonneg (total total' : totals) (food : string) (qty : option Q) :
  (forall q, qty = Some q -> 0 <= q) ->
  totals_nonneg total ->
  add_food FOOD_DATA total (food, qty) = Ok total' ->
  totals_nonneg total'.
Proof.
  intros Hq N. unfold add_food.
  destruct qty as [q|]; [|intros [= <-]; exact N].
  specialize (Hq q eq_refl).
  destruct (Qeq_bool q 0); [intros [= <-]; exact N|].
  destruct (dict_get FOOD_DATA food) as [info|] eqn:G;
    [|intros [= <-]; exact N].
  apply dict_get_In in G.
  pose proof (proj1 (forallb_forall _ _) FOOD_DATA_nonneg (food, info) G) as V.
  unfold info_nonneg in V. cbn [snd] in V.
  apply andb_true_iff in V as [V Vf]. apply andb_true_iff in V as [V Vc].
  apply andb_true_iff in V as [Vk Vp].
  apply Qle_bool_iff in Vk, Vp, Vc, Vf.
  destruct (String.eqb (info_unit info) "g") eqn:U.
  - apply String.eqb_eq in U.
    destruct (table_base_positive FOOD_DATA FOOD_DATA_ok food info G U)
      as (base & Hb & P).
    rewrite Hb. rewrite pydiv_ok by lra. cbn [bind]. intros [= <-].
    assert (R : 0 <= q / base) by (apply Qle_shift_div_l; lra).
    unfold totals_nonneg in *.
    cbn [total_cal total_protein total_carbs total_fat].
    repeat split; nra.
  - destruct (String.eqb (info_unit info) "count"); intros [= <-];
      [|exact N].
    unfold totals_nonneg in *.
    cbn [total_cal total_protein total_carbs total_fat].
    repeat split; nra || tauto.
Qed.

(** X8: quantities that are not negative give macros that are not
    negative. *)
Theorem calculate_macros_nonneg (m : list (string * option Q)) :
  quantities_nonneg m ->
  exists total, calculate_macros m = Ok total /\ totals_nonneg total.
Proof.
  intros Hm.
  destruct (add_foods_total FOOD_DATA FOOD_DATA_ok m zero_totals) as [t H].
  exists t. split; [exact H|].
  assert (N0 : totals_nonneg zero_totals).
  { unfold totals_nonneg, zero_totals; simpl. repeat split; lra. }
  revert H N0. generalize zero_totals as a. revert t.
  induction m as [|[food qty] m IH]; intros t a; cbn [add_foods].
  - intros [= <-] N. exact N.
  - destruct (add_food FOOD_DATA a (food, qty)) as [a1|] eqn:E;
      cbn [bind]; [|discriminate].
    intros H N. apply (IH (fun f q I => Hm f q (or_intror I)) t a1 H).
    apply (add_food_nonneg a a1 food qty); [|exact N|exact E].
    intros q ->. apply (Hm food q). left. reflexivity.
Qed.

Lemma calculate_macros_nonneg_witness :
  quantities_nonneg [("Oats", Some 90); ("Nuts", None)] /\
  exists total,
    calculate_macros [("Oats", Some 90); ("Nuts", None)] = Ok total /\
    totals_nonneg total.
Proof.
  assert (H : quantities_nonneg [("Oats", Some 90); ("Nuts", None)]).
  { intros food q [E|[E|[]]]; [|discriminate E].
    injection E as _ <-. intros C. discriminate C. }
  split; [exact H|].
  apply (calculate_macros_nonneg [("Oats", Some 90); ("Nuts", None)] H).
Defined.

(** ** The store *)

Lemma dict_get_set_same {V : Type} (d : list (string * V)) (k : string)
  (v : V) : dict_get (dict_set d k v) k = Some v.
Proof.
  induction d as [|[k' v'] d IH]; simpl.
  - rewrite String.eqb_refl. reflexivity.
  - destruct (String.eqb k' k) eqn:E; simpl.
    + rewrite String.eqb_refl. reflexivity.
    + rewrite E. exact IH.
Qed.

Lemma dict_get_set_other {V : Type} (d : list (string * V)) (k k' : string)
  (v : V) : k' <> k -> dict_get (dict_set d k v) k' = dict_get d k'.
Proof.
  intros N. induction d as [|[k0 v0] d IH]; simpl.
  - destruct (String.eqb_spec k k'); [congruence|reflexivity].
  - destruct (String.eqb_spec k0 k) as [->|N0]; simpl.
    + destruct (String.eqb_spec k k'); [congruence|reflexivity].
    + destruct (String.eqb k0 k'); [reflexivity|exact IH].
Qed.

Lemma keys_dict_set_present {V : Type} (d : list (string * V)) (k : string)
  (v : V) : In k (keys d) -> keys (dict_set d k v) = keys d.
Proof.
  unfold keys. induction d as [|[k' v'] d IH]; simpl; [contradiction|].
  intros I. destruct (String.eqb_spec k' k) as [->|N]; simpl; [reflexivity|].
  f_equal. apply IH. destruct I as [E|I]; [contradiction|exact I].
Qed.

Lemma dict_set_absent {V : Type} (d : list (string * V)) (k : string)
  (v : V) : ~ In k (keys d) -> dict_set d k v = (d ++ [(k, v)])%list.
Proof.
  unfold keys. induction d as [|[k' v'] d IH]; simpl; [reflexivity|].
  intros N. destruct (String.eqb_spec k' k) as [->|N'].
  - exfalso. apply N. left. reflexivity.
  - f_equal. apply IH. intros I. apply N. right. exact I.
Qed.

Lemma In_dict_set {V : Type} (d : list (string * V)) (k k' : string)
  (v v' : V) :
  In (k', v') (dict_set d k v) -> (k' = k /\ v' = v) \/ In (k', v') d.
Proof.
  induction d as [|[k0 v0] d IH]; simpl.
  - intros [[= <- <-]|[]]. left. split; reflexivity.
  - destruct (String.eqb k0 k); simpl.
    + intros [[= <- <-]|I]; [left; split; reflexivity|right; right; exact I].
    + intros [E|I]; [right; left; exact E|].
      destruct (IH I) as [H|H]; [left; exact H|right; right; exact H].
Qed.

Lemma keys_dict_set_nodup {V : Type} (d : list (string * V)) (k : string)
  (v : V) : NoDup (keys d) -> NoDup (keys (dict_set d k v)).
Proof.
  intros ND. destruct (in_dec string_dec k (keys d)) as [I|N].
  - rewrite keys_dict_set_present by exact I. exact ND.
  - rewrite dict_set_absent by exact N. unfold keys in *.
    rewrite map_app. simpl.
    apply NoDup_app; [exact ND | repeat constructor; intros [] |].
    intros x Ix [<-|[]]. exact (N Ix).
Qed.

(** The entry written by the handler, field by field. *)
Lemma save_entry_ok (selected_date_str : string)
  (combined_food : list (string * option Q)) (extra_foods : list extra_item)
  (weight height : Q) (age steps : Z) (workout_notes : string) :
  let extra_cal := sum (map (fun item => get0 (x_calories item)) extra_foods) in
  let extra_prot := sum (map (fun item => get0 (x_protein item)) extra_foods) in
  let cal_burned := round (inject_Z steps / 1200 * 100) 1 in
  exists bmi macros,
    calculate_bmi weight height = Ok bmi /\
    calculate_macros combined_food = Ok macros /\
    save_entry selected_date_str combined_food extra_foods
      weight height age steps workout_notes =
    Ok {| e_date := selected_date_str;
          e_weight := Some (PyNum weight);
          e_height := Some (PyNum height);
          e_age := Some (PyNum (inject_Z age));
          e_bmi := Some (of_bmi bmi);
          e_steps := Some (PyNum (inject_Z steps));
          e_workout_notes := workout_notes;
          e_food := combined_food;
          e_extra_food := extra_foods;
          e_total_calories :=
            Some (PyNum (round (total_cal macros + extra_cal) 1));
          e_total_protein :=
            Some (PyNum (round (total_protein macros + extra_prot) 1));
          e_net_calories :=
            Some (PyNum (round (total_cal macros + extra_cal - cal_burned) 1));
          e_miles_walked := Some (PyNum (round (inject_Z steps / 1200) 2));
          e_calories_burned := Some (PyNum cal_burned) |}.
Proof.
  intros extra_cal extra_prot cal_burned.
  destruct (calculate_bmi_total weight height) as [bmi Hb].
  destruct (add_foods_total FOOD_DATA FOOD_DATA_ok combined_food zero_totals)
    as [macros Hm].
  change (calculate_macros combined_food = Ok macros) in Hm.
  exists bmi, macros. split; [exact Hb|]. split; [exact Hm|].
  unfold save_entry. rewrite Hb, Hm, steps_to_miles_calories_eq.
  cbn [bind]. rewrite round_idempotent. reflexivity.
Qed.

Lemma save_ok (data : list (string * entry)) (selected_date_str : string)
  (combined_food : list (string * option Q)) (extra_foods : list extra_item)
  (weight height : Q) (age steps : Z) (workout_notes : string) :
  exists e,
    save_entry selected_date_str combined_food extra_foods
      weight height age steps workout_notes = Ok e /\
    e_date e = selected_date_str /\
    save data selected_date_str combined_food extra_foods
      weight height age steps workout_notes =
    Ok (dict_set data selected_date_str e).
Proof.
  destruct (save_entry_ok selected_date_str combined_food extra_foods
              weight height age steps workout_notes)
    as (bmi & macros & _ & _ & H).
  eexists. split; [exact H|]. split; [reflexivity|].
  unfold save. rewrite H. reflexivity.
Qed.

(** X10: after a save the entry read back for that date is the entry just
    built, and the entry read for any other date is the one read before. *)
Theorem save_then_get_entry (data : list (string * entry))
  (selected_date_str : string)
  (combined_food : list (string * option Q)) (extra_foods : list extra_item)
  (weight height : Q) (age steps : Z) (workout_notes : string) :
  exists data' e,
    save data selected_date_str combined_food extra_foods
      weight height age steps workout_notes = Ok data' /\
    save_entry selected_date_str combined_food extra_foods
      weight height age steps workout_notes = Ok e /\
    get_entry data' selected_date_str = e /\
    forall other, other <> selected_date_str ->
                  get_entry data' other = get_entry data other.
Proof.
  destruct (save_ok data selected_date_str combined_food extra_foods
              weight height age steps workout_notes) as (e & He & _ & Hs).
  exists (dict_set data selected_date_str e), e.
  split; [exact Hs|]. split; [exact He|]. split.
  - unfold get_entry. rewrite dict_get_set_same. reflexivity.
  - intros other N. unfold get_entry.
    rewrite dict_get_set_other by exact N. reflexivity.
Qed.

Lemma save_then_get_entry_witness :
  exists data' e,
    save (store_of ["2024-01-02"]) "2024-01-03" [("Oats", Some 90)] []
      70 170 30 2400 "" = Ok data' /\
    get_entry data' "2024-01-03" = e /\
    ("2024-01-02" <> "2024-01-03" ->
     get_entry data' "2024-01-02" =
     get_entry (store_of ["2024-01-02"]) "2024-01-02").
Proof.
  destruct (save_then_get_entry (store_of ["2024-01-02"]) "2024-01-03"
              [("Oats", Some 90)] [] 70 170 30 2400 "")
    as (data' & e & Hs & _ & Hg & Ho).
  exists data', e. split; [exact Hs|]. split; [exact Hg|].
  intros N. apply Ho. exact N.
Defined.

(** X11: a save keeps one entry per date.  Saving a date the store already
    has leaves the list of dates as it was, the entry replaced in place;
    saving a new date puts it last. *)
Theorem save_keys (data : list (string * entry)) (selected_date_str : string)
  (combined_food : list (string * option Q)) (extra_foods : list extra_item)
  (weight height : Q) (age steps : Z) (workout_notes : string) :
  exists data',
    save data selected_date_str combined_food extra_foods
      weight height age steps workout_notes = Ok data' /\
    (NoDup (keys data) -> NoDup (keys data')) /\
    (In selected_date_str (keys data) -> keys data' = keys data) /\
    (~ In selected_date_str (keys data) ->
     keys data' = (keys data ++ [selected_date_str])%list).
Proof.
  destruct (save_ok data selected_date_str combined_food extra_foods
              weight height age steps workout_notes) as (e & _ & _ & Hs).
  exists (dict_set data selected_date_str e). split; [exact Hs|].
  split; [apply keys_dict_set_nodup|].
  split; [apply keys_dict_set_present|].
  intros N. rewrite dict_set_absent by exact N.
  unfold keys. rewrite map_app. reflexivity.
Qed.

Lemma save_keys_witness :
  NoDup (keys (store_of ["2024-01-02"; "2024-01-03"])) /\
  In "2024-01-02" (keys (store_of ["2024-01-02"; "2024-01-03"])) /\
  exists data',
    save (store_of ["2024-01-02"; "2024-01-03"]) "2024-01-02" [] []
      70 170 30 0 "" = Ok data' /\
    NoDup (keys data') /\
    keys data' = keys (store_of ["2024-01-02"; "2024-01-03"]).
Proof.
  assert (ND : NoDup (keys (store_of ["2024-01-02"; "2024-01-03"]))).
  { repeat (constructor; [simpl; intuition discriminate|]). constructor. }
  assert (I : In "2024-01-02" (keys (store_of ["2024-01-02"; "2024-01-03"])))
    by (left; reflexivity).
  split; [exact ND|]. split; [exact I|].
  destruct (save_keys (store_of ["2024-01-02"; "2024-01-03"]) "2024-01-02"
              [] [] 70 170 30 0 "") as (data' & Hs & Hn & Hp & _).
  exists data'. split; [exact Hs|]. split; [exact (Hn ND)|exact (Hp I)].
Defined.

(** X12: if every entry of the store carries its own key as date, so does
    every entry after a save, and the entry read for any date, stored or
    not, carries that date. *)
Theorem save_keeps_dated (data : list (string * entry))
  (selected_date_str : string)
  (combined_food : list (string * option Q)) (extra_foods : list extra_item)
  (weight height : Q) (age steps : Z) (workout_notes : string) :
  dated data ->
  exists data',
    save data selected_date_str combined_food extra_foods
      weight height age steps workout_notes = Ok data' /\
    dated data' /\
    forall date_str, e_date (get_entry data' date_str) = date_str.
Proof.
  intros D.
  destruct (save_ok data selected_date_str combined_food extra_foods
              weight height age steps workout_notes) as (e & _ & Hd & Hs).
  exists (dict_set data selected_date_str e). split; [exact Hs|].
  assert (D' : dated (dict_set data selected_date_str e)).
  { intros k e' I. apply In_dict_set in I as [[-> ->]|I];
      [exact Hd|apply D, I]. }
  split; [exact D'|].
  intros date_str. unfold get_entry.
  destruct (dict_get (dict_set data selected_date_str e) date_str) as [e'|]
    eqn:G; [|reflexivity].
  apply D', dict_get_In, G.
Qed.

Lemma save_keeps_dated_witness :
  dated (store_of ["2024-01-02"; "2024-01-03"]) /\
  exists data',
    save (store_of ["2024-01-02"; "2024-01-03"]) "2024-01-02"
      [("Oats", Some 90)] [] 70 170 30 2400 "" = Ok data' /\
    dated data' /\
    forall date_str, e_date (get_entry data' date_str) = date_str.
Proof.
  assert (D : dated (store_of ["2024-01-02"; "2024-01-03"])).
  { intros k e [E|[E|[]]]; injection E as <- <-; reflexivity. }
  split; [exact D|].
  apply (save_keeps_dated (store_of ["2024-01-02"; "2024-01-03"])
           "2024-01-02" [("Oats", Some 90)] [] 70 170 30 2400 "" D).
Defined.

(** ** More on saving an entry *)

(** X14: the report shows a saved entry as it was stored: its date, and
    its total calories, total protein and net calories without a further
    change by the rounding of the report (or "0" where the stored value is
    zero). *)
Theorem saved_entry_row (selected_date_str : string)
  (combined_food : list (string * option Q)) (extra_foods : list extra_item)
  (weight height : Q) (age steps : Z) (workout_notes : string) :
  exists e,
    save_entry selected_date_str combined_food extra_foods
      weight height age steps workout_notes = Ok e /\
    row_date (summary_row e) = Text selected_date_str /\
    rendered "0" (fun q => q) (e_total_calories e)
      (row_calories (summary_row e)) /\
    rendered "0" (fun q => q) (e_total_protein e)
      (row_protein (summary_row e)) /\
    rendered "0" (fun q => q) (e_net_calories e) (row_net (summary_row e)) /\
    rendered "-" (fun q => q) (e_weight e) (row_weight (summary_row e)).
Proof.
  destruct (save_entry_ok selected_date_str combined_food extra_foods
              weight height age steps workout_notes)
    as (bmi & macros & _ & _ & H).
  cbv zeta in H. eexists. split; [exact H|].
  unfold summary_row.
  cbn [e_date e_total_calories e_total_protein e_net_calories e_weight
       row_date row_calories row_protein row_net row_weight get].
  assert (R : forall x,
             rendered "0" (fun q => q) (Some (PyNum (round x 1)))
               (cell_rounded (PyNum (round x 1)))).
  { intros x. unfold cell_rounded, truthy.
    destruct (Qeq_bool (round x 1) 0) eqn:E; simpl.
    - apply rendered_default. right. right. exists (round x 1).
      split; [reflexivity|]. apply Qeq_bool_eq, E.
    - rewrite round_idempotent.
      apply (rendered_number "0" (fun q => q) _ (round x 1) eq_refl).
      apply Qeq_bool_neq, E. }
  split; [reflexivity|]. split; [apply R|]. split; [apply R|].
  split; [apply R|].
  apply (cell_plain_rendered (Some (PyNum weight))).
Qed.

Lemma sum_nonneg_from (l : list Q) (a : Q) :
  0 <= a -> (forall x, In x l -> 0 <= x) -> 0 <= fold_left Qplus l a.
Proof.
  revert a. induction l as [|x l IH]; intros a Ha H; simpl; [exact Ha|].
  apply IH.
  - pose proof (H x (or_introl eq_refl)). lra.
  - intros y I. apply H. right. exact I.
Qed.

(** X15: when no quantity, no extra food value and no step count is
    negative, the stored total calories, total protein and calories burned
    are not negative, and the stored net calories do not exceed the stored
    total calories. *)
Theorem save_entry_nonneg (selected_date_str : string)
  (combined_food : list (string * option Q)) (extra_foods : list extra_item)
  (weight height : Q) (age steps : Z) (workout_notes : string) :
  quantities_nonneg combined_food ->
  (forall item, In item extra_foods ->
                0 <= get0 (x_calories item) /\ 0 <= get0 (x_protein item)) ->
  (0 <= steps)%Z ->
  exists e total protein burned net,
    save_entry selected_date_str combined_food extra_foods
      weight height age steps workout_notes = Ok e /\
    e_total_calories e = Some (PyNum total) /\
    e_total_protein e = Some (PyNum protein) /\
    e_calories_burned e = Some (PyNum burned) /\
    e_net_calories e = Some (PyNum net) /\
    0 <= total /\ 0 <= protein /\ 0 <= burned /\ net <= total.
Proof.
  intros Hq Hx Hs.
  destruct (save_entry_ok selected_date_str combined_food extra_foods
              weight height age steps workout_notes)
    as (bmi & macros & _ & Hm & H).
  cbv zeta in H. do 5 eexists.
  split; [exact H|].
  cbn [e_total_calories e_total_protein e_calories_burned e_net_calories].
  do 4 (split; [reflexivity|]).
  assert (N : totals_nonneg macros).
  { assert (G : forall m a t,
               quantities_nonneg m -> totals_nonneg a ->
               add_foods FOOD_DATA m a = Ok t -> totals_nonneg t).
    { induction m as [|[food qty] m IH]; intros a t Q N; cbn [add_foods].
      - intros [= <-]. exact N.
      - destruct (add_food FOOD_DATA a (food, qty)) as [a1|] eqn:E;
          cbn [bind]; [|discriminate].
        apply IH; [intros f q I; apply (Q f q); right; exact I|].
        apply (add_food_nonneg a a1 food qty); [|exact N|exact E].
        intros q ->. apply (Q food q). left. reflexivity. }
    apply (G combined_food zero_totals macros Hq); [|exact Hm].
    unfold totals_nonneg, zero_totals; simpl. repeat split; lra. }
  destruct N as (Nc & Np & _ & _).
  assert (Ec : 0 <= sum (map (fun item => get0 (x_calories item)) extra_foods)).
  { apply sum_nonneg_from; [lra|]. intros x I.
    apply in_map_iff in I as (item & <- & I). apply (Hx item I). }
  assert (Ep : 0 <= sum (map (fun item => get0 (x_protein item)) extra_foods)).
  { apply sum_nonneg_from; [lra|]. intros x I.
    apply in_map_iff in I as (item & <- & I). apply (Hx item I). }
  rewrite Zle_Qle in Hs. change (inject_Z 0) with 0 in Hs.
  assert (B : 0 <= round (inject_Z steps / 1200 * 100) 1).
  { apply round_nonneg.
    assert (0 <= inject_Z steps / 1200) by (apply Qle_shift_div_l; lra).
    lra. }
  split; [apply round_nonneg; lra|].
  split; [apply round_nonneg; lra|].
  split; [exact B|].
  apply round_monotone. lra.
Qed.

Lemma save_entry_nonneg_witness :
  quantities_nonneg [("Oats", Some 90)] /\
  (0 <= 2400)%Z /\
  exists e total protein burned net,
    save_entry "2024-01-03" [("Oats", Some 90)] [] 70 170 30 2400 "" = Ok e /\
    e_total_calories e = Some (PyNum total) /\
    e_total_protein e = Some (PyNum protein) /\
    e_calories_burned e = Some (PyNum burned) /\
    e_net_calories e = Some (PyNum net) /\
    0 <= total /\ 0 <= protein /\ 0 <= burned /\ net <= total.
Proof.
  assert (Q : quantities_nonneg [("Oats", Some 90)]).
  { intros food q [E|[]]. injection E as _ <-. intros C. discriminate C. }
  split; [exact Q|]. split; [lia|].
  apply (save_entry_nonneg "2024-01-03" [("Oats", Some 90)] [] 70 170 30 2400
           "" Q); [intros item []|lia].
Defined.

Lemma update_fresh {V : Type} (d other : list (string * V)) :
  NoDup (keys (d ++ other)) -> update d other = (d ++ other)%list.
Proof.
  unfold update. revert d. induction other as [|[k v] other IH]; intros d ND.
  - simpl. rewrite app_nil_r. reflexivity.
  - simpl. unfold keys in ND. rewrite map_app in ND. simpl in ND.
    assert (N : ~ In k (keys d)).
    { intros I. apply NoDup_remove_2 in ND. apply ND.
      apply in_or_app. left. exact I. }
    rewrite dict_set_absent by exact N.
    rewrite IH.
    + rewrite <- app_assoc. reflexivity.
    + unfold keys. rewrite <- app_assoc, map_app. exact ND.
Qed.

(** X16: when the three meal dicts share no food name, as the form builds
    them, the merged dict is the three put one after the other: every pair is
    kept, in the order of the meals. *)
Theorem combine_meals_disjoint (m1 m2 m3 : list (string * option Q)) :
  NoDup (keys (m1 ++ m2 ++ m3)) ->
  combine_meals m1 m2 m3 = (m1 ++ m2 ++ m3)%list.
Proof.
  intros ND.
  assert (ND12 : NoDup (keys (m1 ++ m2))).
  { unfold keys in *. rewrite app_assoc, map_app in ND.
    apply NoDup_app_remove_r in ND. exact ND. }
  assert (ND1 : NoDup (keys m1)).
  { unfold keys in *. rewrite map_app in ND12.
    apply NoDup_app_remove_r in ND12. exact ND12. }
  unfold combine_meals.
  rewrite (update_fresh [] m1) by exact ND1. simpl.
  rewrite (update_fresh m1 m2) by exact ND12.
  rewrite (update_fresh (m1 ++ m2) m3); rewrite <- app_assoc;
    [reflexivity|exact ND].
Qed.

Lemma combine_meals_disjoint_witness :
  NoDup (keys ([("Oats", Some 90)] ++ [("Tomato", Some 2)] ++
               [("Whey Protein Shake", Some 34)])) /\
  combine_meals [("Oats", Some 90)] [("Tomato", Some 2)]
    [("Whey Protein Shake", Some 34)] =
  ([("Oats", Some 90)] ++ [("Tomato", Some 2)] ++
   [("Whey Protein Shake", Some 34)])%list.
Proof.
  assert (ND : NoDup (keys ([("Oats", Some 90)] ++ [("Tomato", Some 2)] ++
                            [("Whey Protein Shake", Some 34)]))).
  { repeat (constructor; [simpl; intuition discriminate|]). constructor. }
  split; [exact ND|].
  apply (combine_meals_disjoint [("Oats", Some 90)] [("Tomato", Some 2)]
           [("Whey Protein Shake", Some 34)] ND).
Defined.

(** ** More on the weekly report *)

Lemma select_entries_nil (data : list (string * entry))
  (start_date end_date : string) :
  select_entries data start_date end_date = [] <->
  forall k, In k (keys data) -> in_range start_date end_date k = false.
Proof.
  unfold select_entries, keys. induction data as [|[k e] data IH]; simpl.
  - split; [intros _ k []|reflexivity].
  - destruct (in_range start_date end_date k) eqn:R; simpl.
    + split; [discriminate|]. intros H.
      specialize (H k (or_introl eq_refl)). congruence.
    + rewrite IH. split.
      * intros H k' [<-|I]; [exact R|apply H, I].
      * intros H k' I. apply H. right. exact I.
Qed.

Lemma in_range_bounds (start_date end_date k : string) :
  in_range start_date end_date k = true ->
  String.leb start_date end_date = true.
Proof.
  unfold in_range. intros H. apply andb_true_iff in H as [H1 H2].
  apply (leb_trans _ _ _ H1 H2).
Qed.

(** X17: the report is [None] exactly when no date of the store lies
    between the two bounds; so it is [None] on every store when the end date
    is below the start date. *)
Theorem generate_weekly_report_none_iff (data : list (string * entry))
  (start_date end_date : string) :
  (generate_weekly_report data start_date end_date = None <->
   forall k, In k (keys data) -> in_range start_date end_date k = false) /\
  (String.ltb end_date start_date = true ->
   generate_weekly_report data start_date end_date = None).
Proof.
  split.
  - rewrite generate_weekly_report_none. apply select_entries_nil.
  - intros L. apply generate_weekly_report_none, select_entries_nil.
    intros k _. destruct (in_range start_date end_date k) eqn:R;
      [|reflexivity].
    apply in_range_bounds in R. unfold String.ltb, String.leb in *.
    rewrite String.compare_antisym in R.
    destruct (String.compare end_date start_date); discriminate.
Qed.

Lemma generate_weekly_report_none_iff_witness :
  String.ltb "2024-01-03" "2024-01-05" = true /\
  generate_weekly_report (store_of january_descending)
    "2024-01-05" "2024-01-03" = None.
Proof.
  split; [reflexivity|].
  apply (proj2 (generate_weekly_report_none_iff (store_of january_descending)
                  "2024-01-05" "2024-01-03")).
  reflexivity.
Defined.

Lemma select_dates (data : list (string * entry))
  (start_date end_date : string) :
  dated data ->
  map e_date (select_entries data start_date end_date) =
  filter (in_range start_date end_date) (keys data).
Proof.
  unfold select_entries, keys. induction data as [|[k e] data IH]; intros D;
    simpl; [reflexivity|].
  assert (D' : dated data) by (intros k' e' I; apply D; right; exact I).
  destruct (in_range start_date end_date k); simpl.
  - rewrite (D k e (or_introl eq_refl)). f_equal. apply IH, D'.
  - apply IH, D'.
Qed.

Lemma select_length (data : list (string * entry))
  (start_date end_date : string) :
  List.length (select_entries data start_date end_date) =
  List.length (filter (in_range start_date end_date) (keys data)).
Proof.
  unfold select_entries, keys. rewrite length_map.
  induction data as [|[k e] data IH]; simpl; [reflexivity|].
  destruct (in_range start_date end_date k); simpl; [f_equal|]; exact IH.
Qed.

(** X18: a report that is produced has one row per stored date between the
    bounds and at least one row, its file is named after the two bounds, and
    on a store whose entries carry their own key as date the date column is
    the list of those dates in the order of the store. *)
Theorem generate_weekly_report_some (data : list (string * entry))
  (start_date end_date : string) (p : pdf) :
  generate_weekly_report data start_date end_date = Some p ->
  List.length (pdf_rows p) =
    List.length (filter (in_range start_date end_date) (keys data)) /\
  (0 < List.length (pdf_rows p))%nat /\
  pdf_filename p =
    "weekly_report_" ++ start_date ++ "_to_" ++ end_date ++ ".pdf" /\
  (dated data ->
   map row_date (pdf_rows p) =
   map Text (filter (in_range start_date end_date) (keys data))).
Proof.
  intros H.
  assert (NE : select_entries data start_date end_date <> []).
  { intros E. apply generate_weekly_report_none in E. congruence. }
  apply generate_weekly_report_rows in H as [R F]. rewrite R.
  unfold summary_rows. rewrite length_map.
  split; [|split; [|split; [exact F|]]].
  - apply select_length.
  - destruct (select_entries data start_date end_date); [congruence|].
    simpl. lia.
  - intros D. rewrite <- (select_dates data start_date end_date D).
    rewrite !map_map. reflexivity.
Qed.

Lemma generate_weekly_report_some_witness :
  exists p,
    generate_weekly_report (store_of ["2024-01-02"])
      "2024-01-01" "2024-01-07" = Some p /\
    (0 < List.length (pdf_rows p))%nat /\
    pdf_filename p = "weekly_report_2024-01-01_to_2024-01-07.pdf".
Proof.
  eexists. split; [reflexivity|].
  split;
    apply (generate_weekly_report_some (store_of ["2024-01-02"])
             "2024-01-01" "2024-01-07" _ eq_refl).
Defined.

(** X19: the date filter of the page returns the stored dates that lie in
    the window, each as often as the store has it, in ascending order. *)
Theorem filtered_dates_spec (data : list (string * entry))
  (seven_days_ago today_str : string) :
  ascending (filtered_dates data seven_days_ago today_str) /\
  Permutation (filtered_dates data seven_days_ago today_str)
    (filter (in_range seven_days_ago today_str) (keys data)) /\
  forall k,
    In k (filtered_dates data seven_days_ago today_str) <->
    In k (keys data) /\
    String.leb seven_days_ago k = true /\ String.leb k today_str = true.
Proof.
  split; [apply sorted_ascending|]. split; [apply sorted_perm|].
  intros k. unfold filtered_dates. split.
  - intros I. apply (Permutation_in _ (sorted_perm _)) in I.
    apply filter_In in I as [I R]. unfold in_range in R.
    apply andb_true_iff in R. tauto.
  - intros (I & L1 & L2).
    apply (Permutation_in _ (Permutation_sym (sorted_perm _))).
    apply filter_In. split; [exact I|].
    unfold in_range. rewrite L1, L2. reflexivity.
Qed.

(** X20: on a store whose dates are in ascending order and whose entries
    carry their own key as date, the entries selected for the report are in
    ascending date order. *)
Theorem select_entries_ascending (data : list (string * entry))
  (start_date end_date : string) :
  dated data -> ascending (keys data) ->
  ascending (map e_date (select_entries data start_date end_date)).
Proof.
  intros D A. rewrite (select_dates data start_date end_date D).
  apply ascending_filter, A.
Qed.

Lemma select_entries_ascending_witness :
  dated (store_of ["2024-01-02"; "2024-01-03"]) /\
  ascending (keys (store_of ["2024-01-02"; "2024-01-03"])) /\
  ascending (map e_date (select_entries (store_of ["2024-01-02"; "2024-01-03"])
                           "2024-01-01" "2024-01-07")).
Proof.
  assert (D : dated (store_of ["2024-01-02"; "2024-01-03"])).
  { intros k e [E|[E|[]]]; injection E as <- <-; reflexivity. }
  assert (A : ascending (keys (store_of ["2024-01-02"; "2024-01-03"]))).
  { repeat constructor. }
  split; [exact D|]. split; [exact A|].
  apply (select_entries_ascending (store_of ["2024-01-02"; "2024-01-03"])
           "2024-01-01" "2024-01-07" D A).
Defined.

Lemma in_keys_of_In {V : Type} (d : list (string * V)) (k : string) :
  In k (keys d) -> exists v, dict_get d k = Some v.
Proof.
  unfold keys. induction d as [|[k' v'] d IH]; simpl; [contradiction|].
  intros I. destruct (String.eqb_spec k' k) as [->|N].
  - exists v'. reflexivity.
  - destruct I as [E|I]; [contradiction|apply IH, I].
Qed.

(** The bounds passed to the report by the page select the same entries as
    the window itself. *)
Lemma page_bounds_select (data : list (string * entry))
  (seven_days_ago today_str start_date : string) (rest : list string) :
  filtered_dates data seven_days_ago today_str = start_date :: rest ->
  select_entries data start_date (last rest start_date) =
  select_entries data seven_days_ago today_str /\
  in_range start_date (last rest start_date) start_date = true /\
  In start_date (keys data).
Proof.
  intros F.
  pose proof (sorted_ascending
                (filter (in_range seven_days_ago today_str) (keys data))) as A.
  pose proof (sorted_perm
                (filter (in_range seven_days_ago today_str) (keys data))) as P.
  change (sorted (filter (in_range seven_days_ago today_str) (keys data)))
    with (filtered_dates data seven_days_ago today_str) in A, P.
  rewrite F in A, P.
  assert (W : forall k, In k (start_date :: rest) ->
                        In k (keys data) /\
                        in_range seven_days_ago today_str k = true).
  { intros k I. apply (Permutation_in _ P) in I.
    apply filter_In in I. exact I. }
  destruct (W start_date (or_introl eq_refl)) as [Ik Rs].
  destruct (W _ (last_In start_date rest)) as [_ Rl].
  unfold in_range in Rs, Rl.
  apply andb_true_iff in Rs as [Rs1 Rs2], Rl as [Rl1 Rl2].
  split; [|split; [|exact Ik]].
  - unfold select_entries. f_equal. apply filter_ext_in.
    intros [k e] I. cbn [fst].
    destruct (in_range seven_days_ago today_str k) eqn:R.
    + assert (Ik' : In k (start_date :: rest)).
      { apply (Permutation_in _ (Permutation_sym P)).
        apply filter_In. split; [|exact R].
        unfold keys. change k with (fst (k, e)). apply in_map, I. }
      destruct (ascending_bounds start_date rest k A Ik') as [B1 B2].
      unfold in_range. rewrite B1, B2. reflexivity.
    + destruct (in_range start_date (last rest start_date) k) eqn:R';
        [|reflexivity].
      unfold in_range in R, R'. apply andb_true_iff in R' as [B1 B2].
      rewrite (leb_trans _ _ _ Rs1 B1), (leb_trans _ _ _ B2 Rl2) in R.
      discriminate R.
  - destruct (ascending_bounds start_date rest start_date A
                (or_introl eq_refl)) as [B1 B2].
    unfold in_range. rewrite B1, B2. reflexivity.
Qed.

(** X21: the "Weekly Report" page never ends with "Failed to generate PDF
    report".  It reports no data exactly on an empty store, no data in the
    last 7 days exactly when the store has no date in the window, and
    otherwise the PDF it offers holds the rows of exactly the entries of the
    window. *)
Theorem weekly_report_page_spec (data : list (string * entry))
  (seven_days_ago today_str : string) :
  weekly_report_page data seven_days_ago today_str <> FailedToGenerate /\
  (weekly_report_page data seven_days_ago today_str = NoDataAvailable <->
   data = []) /\
  (weekly_report_page data seven_days_ago today_str = NoDataInLast7Days <->
   data <> [] /\
   forall k, In k (keys data) ->
             in_range seven_days_ago today_str k = false) /\
  (forall p,
     weekly_report_page data seven_days_ago today_str = Download p ->
     pdf_rows p =
     summary_rows (select_entries data seven_days_ago today_str)).
Proof.
  unfold weekly_report_page.
  destruct data as [|kv data].
  { repeat split; try discriminate; try reflexivity.
    intros [H _]. congruence. }
  set (d := kv :: data).
  destruct (filtered_dates d seven_days_ago today_str) as [|start_date rest]
    eqn:F.
  - assert (N : forall k, In k (keys d) ->
                          in_range seven_days_ago today_str k = false).
    { intros k I.
      destruct (in_range seven_days_ago today_str k) eqn:R; [|reflexivity].
      assert (In k (filtered_dates d seven_days_ago today_str)).
      { apply (Permutation_in _ (Permutation_sym (sorted_perm _))).
        apply filter_In. split; assumption. }
      rewrite F in H. contradiction. }
    repeat split; try discriminate; try exact N.
  - destruct (page_bounds_select d seven_days_ago today_str start_date rest F)
      as (S & R & Ik).
    destruct (generate_weekly_report d start_date (last rest start_date))
      as [p|] eqn:G.
    + repeat split; try discriminate.
      * intros [_ N]. pose proof (N start_date Ik) as C.
        assert (In start_date (filtered_dates d seven_days_ago today_str))
          by (rewrite F; left; reflexivity).
        apply (Permutation_in _ (sorted_perm _)) in H.
        apply filter_In in H as [_ H]. congruence.
      * intros p' [= <-].
        apply generate_weekly_report_rows in G as [G _].
        rewrite G, S. reflexivity.
    + exfalso. apply generate_weekly_report_none in G.
      apply (proj1 (select_entries_nil _ _ _)) with (k := start_date) in G;
        [congruence|exact Ik].
Qed.

Lemma weekly_report_page_spec_witness :
  exists p,
    weekly_report_page (store_of january_descending)
      "2024-01-03" "2024-01-05" = Download p /\
    pdf_rows p =
    summary_rows (select_entries (store_of january_descending)
                    "2024-01-03" "2024-01-05").
Proof.
  eexists. split; [reflexivity|].
  apply (proj2 (proj2 (proj2 (weekly_report_page_spec
                                (store_of january_descending)
                                "2024-01-03" "2024-01-05"))) _ eq_refl).
Defined.

(** X22: a trend chart has its dates in ascending order, one point for
    every stored date, and at each date the value of the metric in the entry
    of that date, or [None] when the entry lacks it. *)
Theorem plot_trends_spec (data : list (string * entry))
  (key : entry -> option value) :
  map fst (plot_trends data key) = sorted (keys data) /\
  ascending (map fst (plot_trends data key)) /\
  Permutation (map fst (plot_trends data key)) (keys data) /\
  (forall d v,
     In (d, v) (plot_trends data key) ->
     exists e, dict_get data d = Some e /\ v = get (key e) PyNone) /\
  (NoDup (keys data) ->
   forall d e, In (d, e) data -> In (d, get (key e) PyNone)
                                    (plot_trends data key)).
Proof.
  assert (M : forall l, (forall d, In d l -> In d (keys data)) ->
                        map fst
                          (flat_map (fun d => match dict_get data d with
                                              | Some e =>
                                                  [(d, get (key e) PyNone)]
                                              | None => []
                                              end) l) = l).
  { induction l as [|d l IH]; intros H; simpl; [reflexivity|].
    destruct (in_keys_of_In data d (H d (or_introl eq_refl))) as [e E].
    rewrite E. simpl. f_equal. apply IH. intros d' I. apply H. right. exact I. }
  assert (E : map fst (plot_trends data key) = sorted (keys data)).
  { apply M. intros d I. apply (Permutation_in _ (sorted_perm _) I). }
  split; [exact E|]. rewrite E.
  split; [apply sorted_ascending|]. split; [apply sorted_perm|]. split.
  - intros d v I. unfold plot_trends in I.
    apply in_flat_map in I as (d' & _ & I).
    destruct (dict_get data d') as [e|] eqn:G; [|contradiction].
    destruct I as [[= <- <-]|[]]. exists e. split; [exact G|reflexivity].
  - intros ND d e I. unfold plot_trends. apply in_flat_map. exists d. split.
    + apply (Permutation_in _ (Permutation_sym (sorted_perm _))).
      unfold keys. change d with (fst (d, e)). apply in_map, I.
    + rewrite (In_dict_get data d e ND I). left. reflexivity.
Qed.

Lemma plot_trends_spec_witness :
  NoDup (keys (store_of ["2024-01-03"; "2024-01-02"])) /\
  In ("2024-01-02", saved_on "2024-01-02")
     (store_of ["2024-01-03"; "2024-01-02"]) /\
  In ("2024-01-02", get (e_weight (saved_on "2024-01-02")) PyNone)
     (plot_trends (store_of ["2024-01-03"; "2024-01-02"]) e_weight).
Proof.
  assert (ND : NoDup (keys (store_of ["2024-01-03"; "2024-01-02"]))).
  { repeat (constructor; [simpl; intuition discriminate|]). constructor. }
  assert (I : In ("2024-01-02", saved_on "2024-01-02")
                 (store_of ["2024-01-03"; "2024-01-02"]))
    by (right; left; reflexivity).
  split; [exact ND|]. split; [exact I|].
  apply (proj2 (proj2 (proj2 (proj2
           (plot_trends_spec (store_of ["2024-01-03"; "2024-01-02"])
              e_weight)))) ND _ _ I).
Defined.

(** ** The "History" page *)

Lemma nth_error_index_of (x : string) (l : list string) :
  In x l -> nth_error l (index_of x l) = Some x.
Proof.
  induction l as [|y l IH]; simpl; [contradiction|].
  intros I. destruct (String.eqb_spec y x) as [->|N]; [reflexivity|].
  simpl. apply IH. destruct I as [E|I]; [contradiction|exact I].
Qed.

Lemma existsb_eqb_In (x : string) (l : list string) :
  existsb (String.eqb x) l = true <-> In x l.
Proof.
  rewrite existsb_exists. split.
  - intros (y & I & E). apply String.eqb_eq in E. subst. exact I.
  - intros I. exists x. split; [exact I|apply String.eqb_refl].
Qed.

Lemma rev_head_last (first : string) (rest : list string) :
  nth_error (rev (first :: rest)) 0 = Some (last rest first).
Proof.
  revert first. induction rest as [|b rest IH]; intros first;
    [reflexivity|].
  rewrite last_cons. specialize (IH b).
  change (rev (first :: b :: rest)) with (rev (b :: rest) ++ [first])%list.
  destruct (rev (b :: rest)) as [|x l]; [discriminate IH|exact IH].
Qed.

(** X23: on a store that is not empty the "History" page starts at the
    selected date when the store has it, and otherwise at the latest stored
    date; in both cases the store has an entry for the date shown. *)
Theorem history_preselected_spec (data : list (string * entry))
  (selected_date_str : string) :
  data <> [] ->
  exists d e,
    history_preselected data selected_date_str = Some d /\
    dict_get data d = Some e /\
    (In selected_date_str (keys data) -> d = selected_date_str) /\
    (~ In selected_date_str (keys data) ->
     forall k, In k (keys data) -> String.leb k d = true).
Proof.
  intros NE. unfold history_preselected.
  destruct data as [|kv data]; [congruence|]. clear NE.
  set (d0 := kv :: data).
  pose proof (sorted_perm (keys d0)) as P.
  pose proof (sorted_ascending (keys d0)) as A.
  assert (InRev : forall k, In k (rev (sorted (keys d0))) <-> In k (keys d0)).
  { intros k. rewrite <- in_rev. split; intros I.
    - apply (Permutation_in _ P I).
    - apply (Permutation_in _ (Permutation_sym P) I). }
  destruct (existsb (String.eqb selected_date_str) (rev (sorted (keys d0))))
    eqn:X.
  - apply existsb_eqb_In in X.
    destruct (in_keys_of_In d0 selected_date_str (proj1 (InRev _) X))
      as [e G].
    exists selected_date_str, e.
    split; [apply nth_error_index_of, X|]. split; [exact G|].
    split; [reflexivity|]. intros N. exfalso. apply N, InRev, X.
  - destruct (sorted (keys d0)) as [|first rest] eqn:S.
    { exfalso. apply Permutation_nil in P. discriminate P. }
    assert (Il : In (last rest first) (keys d0)).
    { apply (Permutation_in _ P), last_In. }
    destruct (in_keys_of_In d0 _ Il) as [e G].
    exists (last rest first), e.
    split; [apply rev_head_last|]. split; [exact G|]. split.
    + intros I. apply InRev, existsb_eqb_In in I. congruence.
    + intros _ k I.
      apply (Permutation_in _ (Permutation_sym P)) in I.
      apply (ascending_bounds first rest k A I).
Qed.

Lemma history_preselected_spec_witness :
  store_of ["2024-01-03"; "2024-01-05"; "2024-01-04"] <> [] /\
  history_preselected (store_of ["2024-01-03"; "2024-01-05"; "2024-01-04"])
    "2024-02-01" = Some "2024-01-05".
Proof.
  split; [discriminate|].
  destruct (history_preselected_spec
              (store_of ["2024-01-03"; "2024-01-05"; "2024-01-04"])
              "2024-02-01") as (d & e & H & _); [discriminate|].
  reflexivity.
Defined.

(** ** Extra foods *)

Lemma sum_app_zero (l : list Q) (z : Q) : z == 0 -> sum (l ++ [z]) == sum l.
Proof.
  intros Z. unfold sum. rewrite fold_left_app. simpl. rewrite Z. ring.
Qed.

(** X24: appending the empty extra food of "Add Extra Food" to the extra
    foods changes none of the stored total calories, total protein, net
    calories and calories burned. *)
Theorem save_entry_blank_extra_food (selected_date_str : string)
  (combined_food : list (string * option Q)) (extra_foods : list extra_item)
  (weight height : Q) (age steps : Z) (workout_notes : string) :
  exists e e',
    save_entry selected_date_str combined_food extra_foods
      weight height age steps workout_notes = Ok e /\
    save_entry selected_date_str combined_food
      (extra_foods ++ [blank_extra_food])
      weight height age steps workout_notes = Ok e' /\
    e_total_calories e' = e_total_calories e /\
    e_total_protein e' = e_total_protein e /\
    e_net_calories e' = e_net_calories e /\
    e_calories_burned e' = e_calories_burned e.
Proof.
  destruct (save_entry_ok selected_date_str combined_food extra_foods
              weight height age steps workout_notes)
    as (bmi & macros & Hb & Hm & H).
  destruct (save_entry_ok selected_date_str combined_food
              (extra_foods ++ [blank_extra_food])
              weight height age steps workout_notes)
    as (bmi' & macros' & Hb' & Hm' & H').
  assert (macros' = macros) by congruence. subst macros'.
  cbv zeta in H, H'. do 2 eexists.
  split; [exact H|]. split; [exact H'|].
  cbn [e_total_calories e_total_protein e_net_calories e_calories_burned].
  rewrite !map_app. cbn [map].
  assert (Zc : get0 (x_calories blank_extra_food) == 0) by reflexivity.
  assert (Zp : get0 (x_protein blank_extra_food) == 0) by reflexivity.
  pose proof (sum_app_zero
                (map (fun item => get0 (x_calories item)) extra_foods) _ Zc)
    as Sc.
  pose proof (sum_app_zero
                (map (fun item => get0 (x_protein item)) extra_foods) _ Zp)
    as Sp.
  repeat split.
  - do 2 f_equal. apply round_comp; [|reflexivity]. rewrite Sc. reflexivity.
  - do 2 f_equal. apply round_comp; [|reflexivity]. rewrite Sp. reflexivity.
  - do 2 f_equal. apply round_comp; [|reflexivity]. rewrite Sc. reflexivity.
Qed.

(** ** Count-based foods in a mapping *)

(** X9: adding a count-based food to a mapping raises the calories and the
    protein by the table values times the quantity and leaves carbs and fat
    as they were, whatever the table holds for them. *)
Theorem calculate_macros_add_count (m : list (string * option Q))
  (food : string) (info : food_info) (qty : Q) :
  In (food, info) FOOD_DATA -> info_unit info = "count" ->
  exists t t',
    calculate_macros m = Ok t /\
    calculate_macros (m ++ [(food, Some qty)]) = Ok t' /\
    total_cal t' == total_cal t + info_cal info * qty /\
    total_protein t' == total_protein t + info_protein info * qty /\
    total_carbs t' == total_carbs t /\
    total_fat t' == total_fat t.
Proof.
  intros I U.
  destruct (add_foods_total FOOD_DATA FOOD_DATA_ok m zero_totals) as [t H].
  destruct (macros_of_count FOOD_DATA FOOD_DATA_nodup food info qty I U)
    as (c & Hc & Ec).
  destruct (add_foods_shift FOOD_DATA [(food, Some qty)] zero_totals t c Hc)
    as (t' & H' & S).
  exists t, t'. split; [exact H|]. split.
  - unfold calculate_macros, calculate_macros_with.
    rewrite add_foods_app, H. exact H'.
  - unfold zero_totals in S. totals_arith.
Qed.

Lemma calculate_macros_add_count_witness :
  In ("Tortilla", per_count 70 5 12 2) FOOD_DATA /\
  info_unit (per_count 70 5 12 2) = "count" /\
  exists t t',
    calculate_macros [("Oats", Some 90)] = Ok t /\
    calculate_macros ([("Oats", Some 90)] ++ [("Tortilla", Some 2)]) = Ok t' /\
    total_cal t' == total_cal t + 70 * 2 /\
    total_protein t' == total_protein t + 5 * 2 /\
    total_carbs t' == total_carbs t /\
    total_fat t' == total_fat t.
Proof.
  split; [do 9 right; left; reflexivity|]. split; [reflexivity|].
  apply (calculate_macros_add_count [("Oats", Some 90)] "Tortilla"
           (per_count 70 5 12 2) 2);
    [do 9 right; left; reflexivity | reflexivity].
Defined.

(** ** The selection, entry by entry *)

(** X25: an entry is selected for the report exactly when the store holds
    it under a date between the two bounds, both included. *)
Theorem select_entries_exact (data : list (string * entry))
  (start_date end_date : string) (e : entry) :
  (In e (select_entries data start_date end_date) <->
   exists k, In (k, e) data /\
             String.leb start_date k = true /\
             String.leb k end_date = true) /\
  (forall k, In (k, e) data -> k = start_date \/ k = end_date ->
             String.leb start_date end_date = true ->
             In e (select_entries data start_date end_date)).
Proof.
  split; [apply select_entries_in_range|].
  intros k I B L. apply select_entries_in_range. exists k.
  split; [exact I|].
  destruct B as [-> | ->]; split;
    first [apply leb_refl | exact L].
Qed.

Lemma select_entries_exact_witness :
  In ("2024-01-03", saved_on "2024-01-03") (store_of january_descending) /\
  String.leb "2024-01-03" "2024-01-05" = true /\
  In (saved_on "2024-01-03")
     (select_entries (store_of january_descending) "2024-01-03" "2024-01-05").
Proof.
  assert (I : In ("2024-01-03", saved_on "2024-01-03")
                 (store_of january_descending))
    by (do 7 right; left; reflexivity).
  split; [exact I|]. split; [reflexivity|].
  apply (proj2 (select_entries_exact (store_of january_descending)
                  "2024-01-03" "2024-01-05" (saved_on "2024-01-03"))
           "2024-01-03" I (or_introl eq_refl) eq_refl).
Defined.

(** * Properties of the binary64 model *)

(** ** Steps conversion *)

Lemma float_of_int_small (z : Z) :
  Py.small z = true -> Py.float_of_int z = Py.Returns (Py.of_small z).
Proof. intros S. unfold Py.float_of_int. rewrite S. reflexivity. Qed.






(** The conversion on step counts where the quotient is a decimal tie or
    close to one, as the interpreter returns them. *)
Example steps_to_miles_calories_values :
  Py.steps_to_miles_calories (Py.Int 0) =
    Py.Returns (Py.Float 0, Py.Float 0) /\
  Py.steps_to_miles_calories (Py.Int 1) =
    Py.Returns (Py.Float 0, Py.Float (Py.literal 1 1)) /\
  Py.steps_to_miles_calories (Py.Int 6) =
    Py.Returns (Py.Float (Py.literal 1 2), Py.Float (Py.literal 5 1)) /\
  Py.steps_to_miles_calories (Py.Int 9) =
    Py.Returns (Py.Float (Py.literal 1 2), Py.Float (Py.literal 8 1)) /\
  Py.steps_to_miles_calories (Py.Int 327) =
    Py.Returns (Py.Float (Py.literal 27 2), Py.Float (Py.literal 273 1)) /\
  Py.steps_to_miles_calories (Py.Int 1200) =
    Py.Returns (Py.Float 1, Py.Float 100) /\
  Py.steps_to_miles_calories (Py.Int 2400) =
    Py.Returns (Py.Float 2, Py.Float 200).
Proof. repeat split. Qed.





(** ** BMI *)






(** The BMI at pairs where the quotient is close to a decimal tie, and what
    is raised on [None] and on heights whose square is zero or too large. *)
Example calculate_bmi_values :
  Py.calculate_bmi (Py.Num (Py.Int 56)) (Py.Num (Py.Int 160)) =
    Py.Returns (Some (Py.Float (Py.literal 2187 2))) /\
  Py.calculate_bmi (Py.Num (Py.Int 70)) (Py.Num (Py.Int 80)) =
    Py.Returns (Some (Py.Float (Py.literal 10937 2))) /\
  Py.calculate_bmi (Py.Num (Py.Float 70))
    (Py.Num (Py.Float (Py.nearest_int (10 ^ 200)))) =
    Py.Raises Py.OverflowError /\
  Py.calculate_bmi Py.NoneValue (Py.Num (Py.Float 170)) =
    Py.Raises Py.TypeError /\
  Py.calculate_bmi (Py.Num (Py.Float 70)) Py.NoneValue =
    Py.Raises Py.TypeError /\
  Py.calculate_bmi (Py.Num (Py.Float 0)) Py.NoneValue = Py.Returns None.
Proof. repeat split. Qed.

(** ** The Save Entry computation *)

(** C3 (amended): the computation completes exactly when each of its steps
    returns, and then it stores the total calories and the total protein,
    each the macros plus the extra foods, rounded to 1 decimal; the calories
    burned as the steps conversion returns them; and as net calories the
    unrounded total calories minus those calories burned, rounded to 1
    decimal.  This holds whatever the builtin [sum] returns on the extra
    foods. *)
Theorem save_entry_computed (sum : list Py.num -> Py.outcome Py.num)
  (combined_food : list (string * Py.value))
  (extra_foods : list Py.extra_item) (weight height : Py.value)
  (steps : Py.num) (c : Py.computed) :
  Py.save_entry sum combined_food extra_foods weight height steps =
    Py.Returns c <->
  exists bmi macros extraCal extraProt total_calories total_protein
         miles cal_burned net_calories,
    Py.calculate_bmi weight height = Py.Returns bmi /\
    Py.calculate_macros combined_food = Py.Returns macros /\
    sum (map (fun item => Py.get0 (Py.x_calories item)) extra_foods) =
      Py.Returns extraCal /\
    sum (map (fun item => Py.get0 (Py.x_protein item)) extra_foods) =
      Py.Returns extraProt /\
    Py.add (Py.total_cal macros) extraCal = Py.Returns total_calories /\
    Py.add (Py.total_protein macros) extraProt = Py.Returns total_protein /\
    Py.steps_to_miles_calories steps = Py.Returns (miles, cal_burned) /\
    Py.sub total_calories cal_burned = Py.Returns net_calories /\
    c = {| Py.c_bmi := bmi;
           Py.c_total_calories := Py.round total_calories 1;
           Py.c_total_protein := Py.round total_protein 1;
           Py.c_miles_walked := miles;
           Py.c_calories_burned := Py.round cal_burned 1;
           Py.c_net_calories := Py.round net_calories 1 |}.
Proof.
  unfold Py.save_entry.
  destruct (Py.calculate_bmi weight height) as [bmi|e] eqn:E1;
    cbn [Py.bind];
    [|split; [discriminate|intros (? & ? & ? & ? & ? & ? & ? & ? & ? & H & _);
                           discriminate H]].
  destruct (Py.calculate_macros combined_food) as [macros|e] eqn:E2;
    cbn [Py.bind];
    [|split; [discriminate
             |intros (? & ? & ? & ? & ? & ? & ? & ? & ? & _ & H & _);
              discriminate H]].
  destruct (sum (map (fun item => Py.get0 (Py.x_calories item)) extra_foods))
    as [xc|e] eqn:E3; cbn [Py.bind];
    [|split; [discriminate
             |intros (? & ? & ? & ? & ? & ? & ? & ? & ? & _ & _ & H & _);
              discriminate H]].
  destruct (sum (map (fun item => Py.get0 (Py.x_protein item)) extra_foods))
    as [xp|e] eqn:E4; cbn [Py.bind];
    [|split; [discriminate
             |intros (? & ? & ? & ? & ? & ? & ? & ? & ? & _ & _ & _ & H & _);
              discriminate H]].
  destruct (Py.add (Py.total_cal macros) xc) as [T|e] eqn:E5; cbn [Py.bind];
    [|split; [discriminate
             |intros (? & m' & xc' & ? & ? & ? & ? & ? & ? & _ & M & X & _ & H
                      & _);
              injection M as <-; injection X as <-; congruence]].
  destruct (Py.add (Py.total_protein macros) xp) as [P|e] eqn:E6;
    cbn [Py.bind];
    [|split; [discriminate
             |intros (? & m' & ? & xp' & ? & ? & ? & ? & ? & _ & M & _ & X & _
                      & H & _);
              injection M as <-; injection X as <-; congruence]].
  destruct (Py.steps_to_miles_calories steps) as [[miles cb]|e] eqn:E7;
    cbn [Py.bind];
    [|split; [discriminate
             |intros (? & ? & ? & ? & ? & ? & ? & ? & ? & _ & _ & _ & _ & _ & _
                      & H & _);
              discriminate H]].
  destruct (Py.sub T cb) as [net|e] eqn:E8; cbn [Py.bind].
  - split.
    + intros [= <-]. exists bmi, macros, xc, xp, T, P, miles, cb, net.
      repeat split; assumption.
    + intros (bmi' & m' & xc' & xp' & T' & P' & miles' & cb' & net'
              & B & M & XC & XP & A1 & A2 & S & N & ->).
      injection B as <-. injection M as <-. injection XC as <-.
      injection XP as <-. rewrite E5 in A1. injection A1 as <-.
      rewrite E6 in A2. injection A2 as <-. injection S as <- <-.
      rewrite E8 in N. injection N as <-. reflexivity.
  - split; [discriminate|].
    intros (bmi' & m' & xc' & xp' & T' & P' & miles' & cb' & net'
            & B & M & XC & XP & A1 & A2 & S & N & _).
    injection M as <-. injection XC as <-. rewrite E5 in A1.
    injection A1 as <-. injection S as <- <-. rewrite E8 in N.
    discriminate N.
Qed.

Lemma save_entry_computed_witness :
  Py.save_entry Py.sum_left [("Oats", Py.Num (Py.Float 90))] []
    (Py.Num (Py.Float 70)) (Py.Num (Py.Float 170)) (Py.Int 2400) =
  Py.Returns
    {| Py.c_bmi := Some (Py.Float (Py.literal 2422 2));
       Py.c_total_calories := Py.Float 340;
       Py.c_total_protein := Py.Float 20;
       Py.c_miles_walked := Py.Float 2;
       Py.c_calories_burned := Py.Float 200;
       Py.c_net_calories := Py.Float 140 |}.
Proof.
  apply (proj2 (save_entry_computed Py.sum_left
                  [("Oats", Py.Num (Py.Float 90))] []
                  (Py.Num (Py.Float 70)) (Py.Num (Py.Float 170))
                  (Py.Int 2400) _)).
  do 9 eexists.
  do 8 (split; [reflexivity|]). reflexivity.
Defined.

(** What the interpreter stores on inputs whose sums are close to a decimal
    tie: 1 g of skim milk powder with 4 g of PB powder (protein 2.1), one
    extra food of 0.35 calories and 0.15 protein (0.3 and 0.1), and 90 g of
    oats with 2400 steps. *)
Example save_entry_values :
  Py.save_entry Py.sum_left
    [("Skim Milk Powder", Py.Num (Py.Float 1));
     ("PB Powder", Py.Num (Py.Float 4))] []
    (Py.Num (Py.Float 70)) (Py.Num (Py.Float 170)) (Py.Int 0) =
  Py.Returns
    {| Py.c_bmi := Some (Py.Float (Py.literal 2422 2));
       Py.c_total_calories := Py.Float 24;
       Py.c_total_protein := Py.Float (Py.literal 21 1);
       Py.c_miles_walked := Py.Float 0;
       Py.c_calories_burned := Py.Float 0;
       Py.c_net_calories := Py.Float 24 |} /\
  Py.save_entry Py.sum_left []
    [{| Py.x_name := "Snack";
        Py.x_calories := Some (Py.Float (Py.literal 35 2));
        Py.x_protein := Some (Py.Float (Py.literal 15 2)) |}]
    (Py.Num (Py.Float 70)) (Py.Num (Py.Float 170)) (Py.Int 0) =
  Py.Returns
    {| Py.c_bmi := Some (Py.Float (Py.literal 2422 2));
       Py.c_total_calories := Py.Float (Py.literal 3 1);
       Py.c_total_protein := Py.Float (Py.literal 1 1);
       Py.c_miles_walked := Py.Float 0;
       Py.c_calories_burned := Py.Float 0;
       Py.c_net_calories := Py.Float (Py.literal 3 1) |} /\
  Py.save_entry Py.sum_left [("Oats", Py.Num (Py.Float 90))] []
    (Py.Num (Py.Float 70)) (Py.Num (Py.Float 170)) (Py.Int 2400) =
  Py.Returns
    {| Py.c_bmi := Some (Py.Float (Py.literal 2422 2));
       Py.c_total_calories := Py.Float 340;
       Py.c_total_protein := Py.Float 20;
       Py.c_miles_walked := Py.Float 2;
       Py.c_calories_burned := Py.Float 200;
       Py.c_net_calories := Py.Float 140 |} /\
  Py.save_entry Py.sum_left [] [] Py.NoneValue (Py.Num (Py.Float 170))
    (Py.Int 0) = Py.Raises Py.TypeError.
Proof. repeat split. Qed.

(** With no fixed-menu food, one extra food of 0.25 calories and 6 steps
    the stored net calories are -0.2; the total rounded first, as the
    specification words it, gives -0.3. *)
Example net_calories_from_rounded_total_differ :
  Py.save_entry Py.sum_left []
    [{| Py.x_name := "Snack";
        Py.x_calories := Some (Py.Float (Py.literal 25 2));
        Py.x_protein := Some (Py.Float 0) |}]
    (Py.Num (Py.Float 70)) (Py.Num (Py.Float 170)) (Py.Int 6) =
  Py.Returns
    {| Py.c_bmi := Some (Py.Float (Py.literal 2422 2));
       Py.c_total_calories := Py.Float (Py.literal 2 1);
       Py.c_total_protein := Py.Float 0;
       Py.c_miles_walked := Py.Float (Py.literal 1 2);
       Py.c_calories_burned := Py.Float (Py.literal 5 1);
       Py.c_net_calories := Py.Float (Py.literal (-2) 1) |} /\
  Py.spec_netCalories (Py.Int 0) (Py.Float (Py.literal 25 2))
    (Py.Float (Py.literal 5 1)) =
  Py.Returns (Py.Float (Py.literal (-3) 1)) /\
  PrimFloat.eqb (Py.literal (-2) 1) (Py.literal (-3) 1) = false.
Proof. repeat split. Qed.

(** ** The conversions *)

(** The rounding conversions agree with the primitive operations where
    both apply, keep the largest float and overflow beyond it. *)
Example nearest_values :
  Py.nearest_quotient 1 3 = PrimFloat.div 1 3 /\
  Py.nearest_quotient 62 10 = PrimFloat.div 62 10 /\
  Py.nearest_quotient (-7) 1200 = PrimFloat.div (-7) 1200 /\
  Py.nearest_int (2 ^ 53 + 1) = Py.of_small (2 ^ 53) /\
  Py.nearest_int (2 ^ 53 + 3) = PrimFloat.add (Py.of_small (2 ^ 53)) 4 /\
  PrimFloat.is_infinity (Py.nearest_int (2 ^ 1024 - 2 ^ 970 - 1)) = false /\
  PrimFloat.is_infinity (Py.nearest_int (2 ^ 1024 - 2 ^ 970)) = true /\
  PrimFloat.is_infinity (Py.nearest_quotient (10 ^ 400) 1200) = true.
Proof. repeat split. Qed.
